(** * The persistent knowledge store of [newfile.py] (class [MiniAI])

    A shallow embedding of the "brain" kept by [MiniAI]: the durable JSON
    document with its backup copy, the short-term buffer filled by [learn],
    the merge performed by [sleep_and_save], the XP and level update, and
    the search of [recall_memory].

    Conventions of the embedding.
    - Python [str] is [string]; [lower] and [strip] are modelled on ASCII
      text (letters A-Z, the ASCII white space of [str.isspace]).
    - Python [int] is [Z]; [//] by a positive constant is [Z.div].
    - A Python [dict] whose iteration order matters (the categories of
      [long_term_memory]) is an association list in insertion order.
    - The working directory is a finite map from file names to contents.
    - [json.load] and [json.dump] belong to the Python library and are
      taken as the two operations of a class [JsonCodec]; [json_load]
      answers [None] where [json.load] raises [JSONDecodeError].
    - The wall clock read by [learn] and the line typed at a prompt are
      explicit arguments; printed lines are returned as a list. *)

From Stdlib Require Import ZArith String Ascii List Bool Lia.
From stdpp Require Import base option list strings pretty gmap.

Local Open Scope string_scope.
Local Open Scope list_scope.
Local Open Scope Z_scope.

(** ** Python string operations used by the store *)

Module Py.

(** [str.lower] on one ASCII character. *)
Definition lower_char (c : ascii) : ascii :=
  let n := nat_of_ascii c in
  if (65 <=? n)%nat && (n <=? 90)%nat then ascii_of_nat (n + 32) else c.

(** [s.lower()] *)
Fixpoint lower (s : string) : string :=
  match s with
  | EmptyString => EmptyString
  | String c s' => String (lower_char c) (lower s')
  end.

(** [c.isspace()] for an ASCII character: tab, line feed, vertical tab,
    form feed, carriage return, the four separators 28-31 and space. *)
Definition isspace (c : ascii) : bool :=
  let n := nat_of_ascii c in
  ((9 <=? n)%nat && (n <=? 13)%nat)
  || ((28 <=? n)%nat && (n <=? 31)%nat)
  || (n =? 32)%nat.

Fixpoint lstrip (s : string) : string :=
  match s with
  | EmptyString => EmptyString
  | String c s' => if isspace c then lstrip s' else s
  end.

Definition rstrip (s : string) : string :=
  String.rev (lstrip (String.rev s)).

(** [s.strip()] *)
Definition strip (s : string) : string := rstrip (lstrip s).

(** [s.startswith(q)] *)
Fixpoint startswith (q s : string) : bool :=
  match q, s with
  | EmptyString, _ => true
  | String _ _, EmptyString => false
  | String a q', String b s' => Ascii.eqb a b && startswith q' s'
  end.

(** [q in s] for two strings: [q] occurs in [s] as a contiguous run,
    starting at the first character or further on. *)
Fixpoint contains (q s : string) : bool :=
  startswith q s ||
  match s with
  | EmptyString => false
  | String _ s' => contains q s'
  end.

(** [s[:n]] *)
Fixpoint slice_to (n : nat) (s : string) : string :=
  match n, s with
  | O, _ => EmptyString
  | S _, EmptyString => EmptyString
  | S n', String c s' => String c (slice_to n' s')
  end.

(** The mathematical reading of [q in s]. *)
Definition substring_of (q s : string) : Prop :=
  exists a b : string, s = a +:+ q +:+ b.

End Py.

(** ** Insertion-ordered dictionaries with string keys *)

Section Dict.
Context {V : Type}.

Definition dict := list (string * V).

(** [d.get(k)] / [d[k]]: the value bound to [k], if any. *)
Fixpoint dict_get (k : string) (d : dict) : option V :=
  match d with
  | [] => None
  | (k', v) :: d' => if decide (k = k') then Some v else dict_get k d'
  end.

(** [k in d] *)
Definition dict_has (k : string) (d : dict) : bool :=
  bool_decide (is_Some (dict_get k d)).

(** [d[k] = v]: rebinds [k] in place, or adds it after the last key. *)
Fixpoint dict_set (k : string) (v : V) (d : dict) : dict :=
  match d with
  | [] => [(k, v)]
  | (k', v') :: d' =>
      if decide (k = k') then (k', v) :: d' else (k', v') :: dict_set k v d'
  end.

Definition dict_keys (d : dict) : list string := d.*1.

End Dict.

Arguments dict : clear implicits.

(** ** Data model *)

(** The ["master_info"] block of the document. *)
Record MasterInfo := mkMasterInfo {
  name : string;
  access_level : string;
  location : string
}.

(** The dictionary built by [learn] and queued in [short_term_memory]:
    it always carries the three keys. *)
Record Entry := mkEntry {
  category : string;
  data : string;
  timestamp : string
}.

(** An item of a category's list in ["long_term_memory"].  The seeded
    item of the blueprint has no ["category"] key, an item appended by
    [sleep_and_save] is the queued dictionary itself and has one. *)
Record Fact := mkFact {
  fact_category : option string;
  fact_data : string;
  fact_timestamp : string
}.

(** [long_term_memory[cat].append(mem)] stores the queued dictionary. *)
Definition stored (mem : Entry) : Fact :=
  mkFact (Some (category mem)) (data mem) (timestamp mem).

(** The document held in [self.attributes] and written to disk.  The
    code provides for a document without ["long_term_memory"]
    (line 165 and the [.get] of [recall_memory]), hence the option. *)
Record Document := mkDocument {
  master_info : MasterInfo;
  level : Z;
  intelligence_points : Z;
  long_term_memory : option (dict (list Fact))
}.

(** [self.attributes.get("long_term_memory", {})] *)
Definition memories_of (doc : Document) : dict (list Fact) :=
  default [] (long_term_memory doc).

(** The state of a [MiniAI] object. *)
Record MiniAI := mkMiniAI {
  short_term_memory : list Entry;
  attributes : Document
}.

Definition FILENAME : string := "mini_brain.json".
Definition BACKUP_FILENAME : string := "mini_brain_backup.json".

(** The blueprint, as the module defines it at import time. *)
Definition DEFAULT_BRAIN_STRUCTURE : Document :=
  {| master_info :=
       {| name := "Achmed Davids";
          access_level := "Soul Master";
          location := "Mitchell's Plain, CP" |};
     level := 1;
     intelligence_points := 50;
     long_term_memory :=
       Some [("CORE_DIRECTIVE",
              [ {| fact_category := None;
                   fact_data := "I am Mini, the External Brain for Achmed Davids. My goal is to serve as a digital extension of his memory.";
                   fact_timestamp := "2026-01-26" |} ])] |}.

(** The files of the working directory: name to content. *)
Abbreviation Files := (gmap string string).

(** [json.load] / [json.dump] on documents.  [json_load] is [None] on a
    text for which [json.load] raises [JSONDecodeError]. *)
Class JsonCodec := {
  json_load : string -> option Document;
  json_dump : Document -> string
}.

(** A codec for worked examples: it parses exactly the texts listed in
    a table and prints a document as its level, its points and the
    data of its facts. *)
Definition sample_dump (doc : Document) : string :=
  String.concat ";"
    (pretty (level doc) :: pretty (intelligence_points doc)
       :: flat_map (fun '(cat, items) => cat :: map fact_data items)
            (memories_of doc)).

Definition sample_codec (table : dict Document) : JsonCodec :=
  {| json_load := fun text => dict_get text table;
     json_dump := sample_dump |}.

(** What a call does: return a value or raise. *)
Inductive exn := JSONDecodeError.

Inductive outcome (A : Type) :=
  | Returns (a : A)
  | Raises (e : exn).
Arguments Returns {A} a.
Arguments Raises {A} e.

(** The lines the store prints (headings and banners left out). *)
Inductive Message :=
  | MsgFolder (cat : string) (text : string)
      (** a category hit: the data cut to its first 100 characters *)
  | MsgPage (cat : string) (text : string)
      (** a content hit: the whole data *)
  | MsgNothingFound
  | MsgLevelUp (new_lvl : Z)
  | MsgSaved
  | MsgError.

(** Where the [try] block of [sleep_and_save] can meet an I/O error:
    in [shutil.copy] (only attempted when the primary file exists), in
    [open(FILENAME, 'w')], or inside [json.dump] after the file has been
    truncated, which leaves some partial text behind. *)
Inductive io_fault :=
  | CopyFails
  | OpenFails
  | DumpFails (partial : string).

(** ** The operations of [MiniAI] that do not touch the disk *)

(** [learn(category, knowledge)]; [now] is the text of
    [datetime.now().strftime("%Y-%m-%d %H:%M:%S")]. *)
Definition learn (now : string) (cat knowledge : string) (app : MiniAI) : MiniAI :=
  {| short_term_memory :=
       short_term_memory app
         ++ [ {| category := cat; data := knowledge; timestamp := now |} ];
     attributes := attributes app |}.

(** One turn of the loop of [sleep_and_save] (lines 169-177). *)
Definition merge_one (ltm : dict (list Fact)) (mem : Entry) : dict (list Fact) :=
  let cat := category mem in
  let ltm := if dict_has cat ltm then ltm else dict_set cat [] ltm in
  let items := default [] (dict_get cat ltm) in
  let existing := map fact_data items in
  if bool_decide (data mem ∈ existing) then ltm
  else dict_set cat (items ++ [stored mem]) ltm.

(** Step 1, "Update Memory" (lines 165-177). *)
Definition update_memory (pending : list Entry) (doc : Document) : Document :=
  {| master_info := master_info doc;
     level := level doc;
     intelligence_points := intelligence_points doc;
     long_term_memory := Some (fold_left merge_one pending (memories_of doc)) |}.

(** [new_items = len(self.short_term_memory)] (line 168). *)
Definition new_items (app : MiniAI) : Z :=
  Z.of_nat (length (short_term_memory app)).

(** Step 2, "XP & Level" (lines 180-186), for a given count. *)
Definition xp_and_level (count : Z) (doc : Document) : Document * list Message :=
  if 0 <? count then
    let cur_xp := intelligence_points doc + count * 50 in
    let new_lvl := 1 + cur_xp / 200 in
    if level doc <? new_lvl then
      ({| master_info := master_info doc;
          level := new_lvl;
          intelligence_points := cur_xp;
          long_term_memory := long_term_memory doc |},
       [MsgLevelUp new_lvl])
    else
      ({| master_info := master_info doc;
          level := level doc;
          intelligence_points := cur_xp;
          long_term_memory := long_term_memory doc |},
       [])
  else (doc, []).

(** Steps 1 to 3 of [sleep_and_save]: the object after "Clear RAM". *)
Definition merge_and_level (app : MiniAI) : MiniAI * list Message :=
  let doc := update_memory (short_term_memory app) (attributes app) in
  let '(doc, said) := xp_and_level (new_items app) doc in
  ({| short_term_memory := []; attributes := doc |}, said).

(** *** [recall_memory] *)

Inductive hit_kind := CategoryHit | ContentHit.

(** One reported item: the branch that reported it, its category, and
    the item of the category's list. *)
Record Hit := mkHit {
  hit_kind_of : hit_kind;
  hit_cat : string;
  hit_item : Fact
}.

(** The body of the loop over [memories.items()] (lines 148-156). *)
Definition recall_category (query : string) (cat : string)
    (data_list : list Fact) : list Hit :=
  if Py.contains query (Py.lower cat) then
    map (mkHit CategoryHit cat) data_list
  else
    map (mkHit ContentHit cat)
      (List.filter (fun item => Py.contains query (Py.lower (fact_data item)))
         data_list).

(** The items reported for the line [typed] at the prompt, in order. *)
Definition recall_hits (typed : string) (app : MiniAI) : list Hit :=
  let query := Py.strip (Py.lower typed) in
  let memories := memories_of (attributes app) in
  flat_map (fun '(cat, data_list) => recall_category query cat data_list)
    memories.

Definition print_hit (h : Hit) : Message :=
  match hit_kind_of h with
  | CategoryHit => MsgFolder (hit_cat h) (Py.slice_to 100 (fact_data (hit_item h)))
  | ContentHit => MsgPage (hit_cat h) (fact_data (hit_item h))
  end.

(** [recall_memory]: the printed lines; [found] stays false exactly
    when no line was printed. *)
Definition recall_memory (typed : string) (app : MiniAI) : list Message :=
  match recall_hits typed app with
  | [] => [MsgNothingFound]
  | hits => map print_hit hits
  end.

(** The commands of the main loop that reach the store: [T] and [L]
    end in calls of [learn], [R] is [recall_memory], [S] and [Q] are
    [sleep_and_save]. *)
Inductive command :=
  | Learn (now cat knowledge : string)
  | Recall (typed : string)
  | Sleep (fault : option io_fault).

(** ** The operations that read and write the disk *)

Section Disk.
Context `{JsonCodec}.

(** [create_new_brain].  The function writes and returns the
    module-level object [DEFAULT_BRAIN_STRUCTURE] itself, which
    [sleep_and_save] later updates in place when it is the object in
    [self.attributes]; [blueprint] is the value the object has at the
    time of the call. *)
Definition create_new_brain (blueprint : Document) (fs : Files)
    : Files * Document :=
  (<[FILENAME := json_dump blueprint]> fs, blueprint).

(** [load_brain] (lines 54-71).  Only [JSONDecodeError] is caught, and
    only around the first [json.load]. *)
Definition load_brain (blueprint : Document) (fs : Files)
    : Files * outcome Document :=
  match fs !! FILENAME with
  | Some text =>
      match json_load text with
      | Some doc => (fs, Returns doc)
      | None =>
          match fs !! BACKUP_FILENAME with
          | Some saved =>
              let fs := <[FILENAME := saved]> fs in
              match json_load saved with
              | Some doc => (fs, Returns doc)
              | None => (fs, Raises JSONDecodeError)
              end
          | None =>
              let '(fs, doc) := create_new_brain blueprint fs in
              (fs, Returns doc)
          end
      end
  | None =>
      let '(fs, doc) := create_new_brain blueprint fs in
      (fs, Returns doc)
  end.

(** [MiniAI()] in a fresh interpreter: the program builds its one
    object at start-up, when the module-level blueprint still has the
    value it was defined with. *)
Definition MiniAI_init (fs : Files) : Files * outcome MiniAI :=
  match load_brain DEFAULT_BRAIN_STRUCTURE fs with
  | (fs, Returns doc) =>
      (fs, Returns {| short_term_memory := []; attributes := doc |})
  | (fs, Raises e) => (fs, Raises e)
  end.

(** [with open(FILENAME, 'w') as f: json.dump(...)] under a fault. *)
Definition write_primary (fault : option io_fault) (doc : Document)
    (fs : Files) : Files * Message :=
  match fault with
  | Some OpenFails => (fs, MsgError)
  | Some (DumpFails partial) => (<[FILENAME := partial]> fs, MsgError)
  | Some CopyFails | None => (<[FILENAME := json_dump doc]> fs, MsgSaved)
  end.

(** Step 4, "Backup & Save" (lines 192-200): every exception of the
    block is caught and reported. *)
Definition backup_and_save (fault : option io_fault) (doc : Document)
    (fs : Files) : Files * Message :=
  match fs !! FILENAME with
  | Some current =>
      match fault with
      | Some CopyFails => (fs, MsgError)
      | _ => write_primary fault doc (<[BACKUP_FILENAME := current]> fs)
      end
  | None => write_primary fault doc fs
  end.

(** [sleep_and_save] (lines 160-200). *)
Definition sleep_and_save (fault : option io_fault) (fs : Files)
    (app : MiniAI) : Files * MiniAI * list Message :=
  let '(app, said) := merge_and_level app in
  let '(fs, report) := backup_and_save fault (attributes app) fs in
  (fs, app, said ++ [report]).

(** One command of the main loop, on the working directory and the
    object. *)
Definition step (cmd : command) (st : Files * MiniAI)
    : Files * MiniAI * list Message :=
  match cmd with
  | Learn now cat knowledge => (st.1, learn now cat knowledge st.2, [])
  | Recall typed => (st.1, st.2, recall_memory typed st.2)
  | Sleep fault => sleep_and_save fault st.1 st.2
  end.

Fixpoint run (cmds : list command) (st : Files * MiniAI) : Files * MiniAI :=
  match cmds with
  | [] => st
  | cmd :: cmds => run cmds (step cmd st).1
  end.

(** A batch of facts is learnt, then saved without any I/O error. *)
Definition commit_batch (batch : list Entry) (st : Files * MiniAI)
    : Files * MiniAI :=
  let app :=
    fold_left
      (fun app mem => learn (timestamp mem) (category mem) (data mem) app)
      batch st.2 in
  (sleep_and_save None st.1 app).1.

(** The states a succession of such commits leads through: the start,
    then the state after each commit. *)
Fixpoint commits (batches : list (list Entry)) (st : Files * MiniAI)
    : list (Files * MiniAI) :=
  match batches with
  | [] => [st]
  | batch :: batches => st :: commits batches (commit_batch batch st)
  end.

End Disk.

(** ** Notions used to state the properties *)

(** The items of all categories, each with its key, in document order. *)
Definition all_facts (ltm : dict (list Fact)) : list (string * Fact) :=
  flat_map (fun '(cat, items) => map (pair cat) items) ltm.

(** How many items the document holds, over all categories. *)
Definition fact_count (doc : Document) : nat :=
  length (all_facts (memories_of doc)).

(** No two items of one category's list carry the same data. *)
Definition unique_data (ltm : dict (list Fact)) : Prop :=
  forall cat items,
    dict_get cat ltm = Some items -> NoDup (map fact_data items).

(** The level that goes with a number of points: 1 + floor(points / 200). *)
Definition level_for (points : Z) : Z := 1 + points / 200.

(** The documents a succession of counts leads through: the start, then
    the document after each update of XP and level. *)
Fixpoint level_run (counts : list Z) (doc : Document) : list Document :=
  match counts with
  | [] => [doc]
  | count :: counts => doc :: level_run counts (xp_and_level count doc).1
  end.

(** The second document comes from the first by appending only: same
    profile, the old keys first and in their order, and under each old
    key the old list followed by what was added. *)
Definition only_appended (before after : Document) : Prop :=
  master_info after = master_info before
  /\ dict_keys (memories_of before) `prefix_of` dict_keys (memories_of after)
  /\ forall cat items,
       dict_get cat (memories_of before) = Some items ->
       exists extra,
         dict_get cat (memories_of after) = Some (items ++ extra).

(** How many items a commit added: the count after less the count
    before. *)
Definition facts_appended (before after : Document) : Z :=
  Z.of_nat (fact_count after) - Z.of_nat (fact_count before).

(** Whether a fault is met by the [try] block on a given directory:
    the copy is only attempted when the primary file exists. *)
Definition strikes (fault : option io_fault) (fs : Files) : bool :=
  match fault with
  | None => false
  | Some CopyFails => bool_decide (is_Some (fs !! FILENAME))
  | Some OpenFails | Some (DumpFails _) => true
  end.

(** The category and the item a hit reports. *)
Definition report_of (h : Hit) : string * Fact := (hit_cat h, hit_item h).

(** When an item of a category is reported for a query, and how: by
    the category rule when the query occurs in the lowered category
    name, else by the content rule when it occurs in the lowered
    data. *)
Definition reported_as (query : string) (h : Hit) : Prop :=
  (Py.substring_of query (Py.lower (hit_cat h))
   /\ hit_kind_of h = CategoryHit)
  \/ (~ Py.substring_of query (Py.lower (hit_cat h))
      /\ Py.substring_of query (Py.lower (fact_data (hit_item h)))
      /\ hit_kind_of h = ContentHit).

(** A line made of white space only (the empty line included). *)
Fixpoint blank (s : string) : bool :=
  match s with
  | EmptyString => true
  | String c s' => Py.isspace c && blank s'
  end.

(** The document of the recall example: two categories of one fact. *)
Definition example_doc : Document :=
  {| master_info := master_info DEFAULT_BRAIN_STRUCTURE;
     level := 1;
     intelligence_points := 150;
     long_term_memory :=
       Some [("ENGINE",
              [mkFact (Some "ENGINE") "IGBT driver uses TC4420CPA"
                 "2026-01-26 10:00:00"]);
             ("LEGAL",
              [mkFact (Some "LEGAL") "Case filed 2024"
                 "2026-01-26 10:00:01"])] |}.

(** Two sessions used as worked examples: the same pair learnt twice
    over the blueprint, and a pair learnt that [example_doc] already
    holds. *)
Definition engine_twice : MiniAI :=
  learn "2026-01-26 10:00:03" "ENGINE" "IGBT driver uses TC4420CPA"
    (learn "2026-01-26 10:00:02" "ENGINE" "IGBT driver uses TC4420CPA"
       {| short_term_memory := []; attributes := DEFAULT_BRAIN_STRUCTURE |}).

Definition engine_again : MiniAI :=
  learn "2026-01-26 10:00:04" "ENGINE" "IGBT driver uses TC4420CPA"
    {| short_term_memory := []; attributes := example_doc |}.

(** The codec of the worked examples parses no text at all. *)
Definition no_table : JsonCodec := sample_codec [].

(** * The rest of the program *)

(** ** Further Python string operations *)

Module PyMore.

(** The truth value of a string in a condition: false for the empty
    string only. *)
Definition truthy (s : string) : bool :=
  match s with
  | EmptyString => false
  | String _ _ => true
  end.

(** [str.upper] on one ASCII character. *)
Definition upper_char (c : ascii) : ascii :=
  let n := nat_of_ascii c in
  if (97 <=? n)%nat && (n <=? 122)%nat then ascii_of_nat (n - 32) else c.

(** [s.upper()] *)
Fixpoint upper (s : string) : string :=
  match s with
  | EmptyString => EmptyString
  | String c s' => String (upper_char c) (upper s')
  end.

(** [s.endswith(suffix)] *)
Definition endswith (s suffix : string) : bool :=
  Py.startswith (String.rev suffix) (String.rev s).

(** [s.replace(old, new)] for a non-empty [old]: the occurrences of
    [old] are found from the left and do not overlap; [skip] counts the
    characters of an occurrence still to be passed over. *)
Fixpoint replace_from (old new : string) (skip : nat) (s : string) : string :=
  match s with
  | EmptyString => EmptyString
  | String c s' =>
      match skip with
      | S skip' => replace_from old new skip' s'
      | O =>
          if Py.startswith old s then
            new +:+ replace_from old new (String.length old - 1) s'
          else String c (replace_from old new 0 s')
      end
  end.

Definition replace (old new s : string) : string :=
  replace_from old new 0 s.

End PyMore.

(** ** The front ends of [MiniAI]: typed input and the file sweep *)

(** The lines these two methods print. *)
Inductive Notice :=
  | NoticeRemembered
  | NoticeEmptyInput
  | NoticeNoTxtFiles
  | NoticeFileError (file : string)
  | NoticeLearned (count : Z).

(** [direct_input] (lines 92-102): [topic] and [body] are the two lines
    typed at the prompts, [now] the clock read by [learn]. *)
Definition direct_input (now topic body : string) (app : MiniAI)
    : MiniAI * Notice :=
  let category := Py.strip topic in
  let content := Py.strip body in
  if PyMore.truthy category && PyMore.truthy content then
    (learn now category content app, NoticeRemembered)
  else (app, NoticeEmptyInput).

(** An entry of [INPUT_FOLDER] as [os.listdir] names it, with what the
    system answers for it: the text read from it ([None] when [open] or
    [read] raises), the clock at the time it is learnt, and whether
    [shutil.move] to the processed folder succeeds. *)
Record InputFile := mkInputFile {
  file_name : string;
  read_as : option string;
  read_at : string;
  movable : bool
}.

(** [INPUT_FOLDER] in listing order, and the files of
    [PROCESSED_FOLDER] by name. *)
Record Folders := mkFolders {
  input_folder : list InputFile;
  processed_folder : gmap string string
}.

(** [shutil.move(src, dst)]: the file leaves the input folder and takes
    its name in the processed folder. *)
Definition move_file (f : InputFile) (raw : string) (dir : Folders) : Folders :=
  {| input_folder :=
       filter (fun g => file_name g <> file_name f) (input_folder dir);
     processed_folder := <[file_name f := raw]> (processed_folder dir) |}.

(** The state carried through the loop of [read_files_and_learn]. *)
Record Sweep := mkSweep {
  sweep_folders : Folders;
  sweep_app : MiniAI;
  sweep_count : Z;
  sweep_said : list Notice
}.

(** The body of the loop (lines 115-127). *)
Definition sweep_file (st : Sweep) (f : InputFile) : Sweep :=
  let cat := PyMore.replace ".txt" "" (file_name f) in
  match read_as f with
  | None =>
      {| sweep_folders := sweep_folders st;
         sweep_app := sweep_app st;
         sweep_count := sweep_count st;
         sweep_said := sweep_said st ++ [NoticeFileError (file_name f)] |}
  | Some raw =>
      let content := Py.strip raw in
      let app :=
        if PyMore.truthy content then learn (read_at f) cat content (sweep_app st)
        else sweep_app st in
      let count :=
        if PyMore.truthy content then sweep_count st + 1 else sweep_count st in
      if movable f then
        {| sweep_folders := move_file f raw (sweep_folders st);
           sweep_app := app;
           sweep_count := count;
           sweep_said := sweep_said st |}
      else
        {| sweep_folders := sweep_folders st;
           sweep_app := app;
           sweep_count := count;
           sweep_said := sweep_said st ++ [NoticeFileError (file_name f)] |}
  end.

(** The files the sweep looks at: [f.endswith('.txt')]. *)
Definition txt_files (dir : Folders) : list InputFile :=
  List.filter (fun f => PyMore.endswith (file_name f) ".txt") (input_folder dir).

(** [read_files_and_learn] (lines 104-130). *)
Definition read_files_and_learn (dir : Folders) (app : MiniAI)
    : Folders * MiniAI * list Notice :=
  match txt_files dir with
  | [] => (dir, app, [NoticeNoTxtFiles])
  | files =>
      let st :=
        fold_left sweep_file files
          {| sweep_folders := dir; sweep_app := app;
             sweep_count := 0; sweep_said := [] |} in
      (sweep_folders st, sweep_app st,
       sweep_said st
         ++ (if 0 <? sweep_count st then [NoticeLearned (sweep_count st)]
             else []))
  end.

(** The name ends in [.txt]. *)
Definition is_txt (f : InputFile) : Prop :=
  PyMore.endswith (file_name f) ".txt" = true.

(** Whether the sweep learns a file: a [.txt] name, a text that can be
    read and that is not blank. *)
Definition learnable (f : InputFile) : bool :=
  PyMore.endswith (file_name f) ".txt"
  && match read_as f with
     | Some raw => PyMore.truthy (Py.strip raw)
     | None => false
     end.

(** The entry the sweep queues for a file it learns. *)
Definition entry_of_file (f : InputFile) : Entry :=
  {| category := PyMore.replace ".txt" "" (file_name f);
     data := Py.strip (default "" (read_as f));
     timestamp := read_at f |}.

(** Whether the sweep moves a file away. *)
Definition swept (f : InputFile) : bool :=
  PyMore.endswith (file_name f) ".txt" && bool_decide (is_Some (read_as f))
  && movable f.

(** How many [Learn] commands a succession of commands holds. *)
Definition learn_count (cmds : list command) : Z :=
  Z.of_nat
    (length
       (List.filter
          (fun cmd => match cmd with Learn _ _ _ => true | _ => false end)
          cmds)).

(** ** The main loop of [MiniAI] (lines 202-215) *)

(** One turn of the loop as the surroundings supply it: the line typed
    at the command prompt, the lines the user would type at the prompts
    of [direct_input] and [recall_memory], the clock, and the I/O error
    a save would meet.  A turn uses only the parts its command asks
    for. *)
Record Turn := mkTurn {
  turn_command : string;
  turn_topic : string;
  turn_body : string;
  turn_search : string;
  turn_now : string;
  turn_fault : option io_fault
}.

(** What the program works on: the working directory, the input and
    processed folders, and the [MiniAI] object. *)
Record World := mkWorld {
  disk : Files;
  folders : Folders;
  mini : MiniAI
}.

(** A line printed during the loop. *)
Inductive Printed :=
  | PrintedMessage (m : Message)
  | PrintedNotice (n : Notice)
  | PrintedBye.

(** How the loop ends: [break] after [Q], or [input] raising
    [EOFError] when no line is left. *)
Inductive ending := Quit | EndOfInput.

Section MainLoop.
Context `{JsonCodec}.

(** The branches [L], [T], [R] and [S] of the loop, for the command
    [c] already upper-cased and trimmed (any other text does
    nothing). *)
Definition loop_body (c : string) (t : Turn) (w : World)
    : World * list Printed :=
  if decide (c = "L") then
    let '(dir, app, said) := read_files_and_learn (folders w) (mini w) in
    ({| disk := disk w; folders := dir; mini := app |},
     map PrintedNotice said)
  else if decide (c = "T") then
    let '(app, said) :=
      direct_input (turn_now t) (turn_topic t) (turn_body t) (mini w) in
    ({| disk := disk w; folders := folders w; mini := app |},
     [PrintedNotice said])
  else if decide (c = "R") then
    (w, map PrintedMessage (recall_memory (turn_search t) (mini w)))
  else if decide (c = "S") then
    let '(fs, app, said) := sleep_and_save (turn_fault t) (disk w) (mini w) in
    ({| disk := fs; folders := folders w; mini := app |},
     map PrintedMessage said)
  else (w, []).

(** The loop over the turns the surroundings supply. *)
Fixpoint main_loop (turns : list Turn) (w : World)
    : World * list Printed * ending :=
  match turns with
  | [] => (w, [], EndOfInput)
  | t :: turns =>
      let c := Py.strip (PyMore.upper (turn_command t)) in
      if decide (c = "Q") then
        let '(fs, app, said) :=
          sleep_and_save (turn_fault t) (disk w) (mini w) in
        ({| disk := fs; folders := folders w; mini := app |},
         map PrintedMessage said ++ [PrintedBye], Quit)
      else
        let '(w, said) := loop_body c t w in
        let '(w, more, how) := main_loop turns w in
        (w, said ++ more, how)
  end.


End MainLoop.

(** ** [RestrainedExpert] (lines 656-723) *)

Module Expert.

(** The dictionary kept in [self.memory]; the program never looks into
    the items of ["habits"]. *)
Record Memory := mkMemory {
  habits : list string;
  interactions : Z;
  start_count : Z
}.

(** [json.load] / [json.dump] on memories, [None] where [json.load]
    raises. *)
Class MemoryCodec := {
  memory_load : string -> option Memory;
  memory_dump : Memory -> string
}.

Definition memory_file : string := "vortex_memory.json".

Definition default_memory : Memory :=
  {| habits := []; interactions := 0; start_count := 0 |}.

(** [self.commands], in the order of the dictionary. *)
Definition commands : dict string :=
  [("google", "http://google.com");
   ("email", "mailto:");
   ("youtube", "http://youtube.com");
   ("music", "content://media/internal/audio/media")].

(** What [speak] says. *)
Inductive Utterance :=
  | SayOpening (key : string)
  | SayStatus (count : Z)
  | SayNotRecognized (cmd : string).

(** What [execute_command] does towards the outside. *)
Inductive Action :=
  | Speak (text : Utterance)
  | StartActivity (intent uri : string).

(** [listen] (lines 691-701).  [heard] is what [recognizeSpeech]
    returns, [None] when it raises; an item that is not a string is
    [None], and calling [lower] on it raises inside the [try]. *)
Definition listen (heard : option (list (option string))) : option string :=
  match heard with
  | None => None
  | Some [] => None
  | Some [first] => Py.lower <$> first
  | Some (_ :: second :: _) => Py.lower <$> second
  end.

Section Ops.
Context `{MemoryCodec}.

(** [load_memory] (lines 672-680): the bare [except] swallows every
    error of the read. *)
Definition load_memory (fs : Files) : Memory :=
  match fs !! memory_file with
  | Some text =>
      match memory_load text with
      | Some memory => memory
      | None => default_memory
      end
  | None => default_memory
  end.

(** [save_memory] (lines 682-685), when the write succeeds; the method
    has no handler for an I/O error. *)
Definition save_memory (memory : Memory) (fs : Files) : Files :=
  <[memory_file := memory_dump memory]> fs.

(** The first application, in dictionary order, whose name occurs in
    the command (the [for] loop of lines 712-716). *)
Definition find_app (cmd : string) : option (string * string) :=
  List.find (fun '(key, _) => Py.contains key cmd) commands.

(** [execute_command] (lines 703-723). *)
Definition execute_command (cmd : option string) (fs : Files)
    (memory : Memory) : Files * Memory * list Action :=
  match cmd with
  | None | Some EmptyString => (fs, memory, [])
  | Some cmd =>
      let memory :=
        {| habits := habits memory;
           interactions := interactions memory + 1;
           start_count := start_count memory |} in
      let fs := save_memory memory fs in
      let otherwise :=
        if Py.contains "status" cmd then
          [Speak (SayStatus (interactions memory))]
        else [Speak (SayNotRecognized cmd)] in
      if Py.contains "open" cmd then
        match find_app cmd with
        | Some (key, uri) =>
            (fs, memory,
             [Speak (SayOpening key);
              StartActivity "android.intent.action.VIEW" uri])
        | None => (fs, memory, otherwise)
        end
      else (fs, memory, otherwise)
  end.

(** Commands executed one after the other. *)
Fixpoint execute_all (cmds : list (option string)) (fs : Files)
    (memory : Memory) : Files * Memory * list Action :=
  match cmds with
  | [] => (fs, memory, [])
  | cmd :: cmds =>
      let '(fs, memory, done) := execute_command cmd fs memory in
      let '(fs, memory, more) := execute_all cmds fs memory in
      (fs, memory, done ++ more)
  end.

End Ops.

(** A codec for worked examples: it writes the interaction count and
    parses no text. *)
Definition count_codec : MemoryCodec :=
  {| memory_load := fun _ => None;
     memory_dump := fun memory => pretty (interactions memory) |}.

(** Whether [execute_command] acts on a command: not [None], not the
    empty string. *)
Definition acted_on (cmd : option string) : bool :=
  match cmd with
  | None | Some EmptyString => false
  | Some _ => true
  end.

End Expert.

(** ** [SovereignMobile] and its start-up script (lines 234-282) *)

Module Mobile.

Definition vault : dict (list string) :=
  [("LEGAL", ["Shaun Case (VW Polo)"; "Woodville Primary (Safety/Misconduct)"]);
   ("FINANCIAL", ["Standard Bank Proposal (R300k)"; "FNB/Nedbank Submissions"]);
   ("ASSETS", ["76 Mitchells Avenue HQ"; "Vortex Resonance IP"]);
   ("LOGISTICS", ["Nissan 1400 Bakkie Research"; "Technical Commission Rollout"])].

(** The lines the class and the script print. *)
Inductive Line :=
  | LineBanner
  | LineStatusReport (now : string)
  | LineOperator
  | LineHeadquarters
  | LineActivePhase
  | LineRecalling (category : string)
  | LineItem (item : string)
  | LineNotFound
  | LineUnauthorized.

(** [authenticate]: [pin] is the line typed at the prompt. *)
Definition authenticate (pin : string) : bool * list Line :=
  (bool_decide (pin = "1952"), [LineBanner]).

(** [get_info] *)
Definition get_info (category : string) : list Line :=
  let category := PyMore.upper category in
  match dict_get category vault with
  | Some items => LineRecalling category :: map LineItem items
  | None => [LineNotFound]
  end.

(** [system_status]; [now] is the formatted clock. *)
Definition system_status (now : string) : list Line :=
  [LineStatusReport now; LineOperator; LineHeadquarters; LineActivePhase].

(** The script run at import (lines 275-282). *)
Definition mobile_interface (pin now : string) : list Line :=
  let '(granted, said) := authenticate pin in
  said ++ if granted then system_status now ++ get_info "LEGAL"
          else [LineUnauthorized].

End Mobile.

(** A text that is not empty and has no white space at either end. *)
Definition trimmed_text (s : string) : Prop :=
  s <> "" /\ Py.strip s = s.

(** The turn asks to quit: its command is [Q] once upper-cased and
    trimmed. *)
Definition quits (t : Turn) : Prop :=
  Py.strip (PyMore.upper (turn_command t)) = "Q".

#[export] Instance quits_dec (t : Turn) : Decision (quits t) :=
  decide (Py.strip (PyMore.upper (turn_command t)) = "Q").

(** Every pending entry and every stored item carries a data that is
    not empty and has no white space at either end. *)
Definition sound_data (app : MiniAI) : Prop :=
  Forall (fun mem => trimmed_text (data mem)) (short_term_memory app)
  /\ Forall (fun fact => trimmed_text (fact_data fact.2))
       (all_facts (memories_of (attributes app))).


(** * Properties *)

(** ** Strings *)

Module PyFacts.
Import Py.

Lemma startswith_true_iff (q s : string) :
  startswith q s = true <-> exists b, s = q +:+ b.
Proof.
  revert s; induction q as [|c q IH]; intros s; simpl.
  - split; [intros _; exists s; reflexivity | reflexivity].
  - destruct s as [|d s]; simpl.
    + split; [discriminate | intros [b Hb]; discriminate].
    + rewrite andb_true_iff, Ascii.eqb_eq, IH.
      split.
      * intros [-> [b ->]]. exists b. reflexivity.
      * intros [b Hb]. injection Hb as -> ->. split; [reflexivity | exists b; reflexivity].
Qed.

Lemma contains_true_iff (q s : string) :
  contains q s = true <-> substring_of q s.
Proof.
  split.
  - induction s as [|c s IH]; simpl; rewrite orb_true_iff; intros [Hp|Hc].
    + apply startswith_true_iff in Hp as [b Hb]. exists "", b. exact Hb.
    + discriminate.
    + apply startswith_true_iff in Hp as [b Hb]. exists "", b. exact Hb.
    + destruct (IH Hc) as (a & b & ->). exists (String c a), b. reflexivity.
  - intros (a & b & ->). induction a as [|c a IH]; simpl.
    + destruct (q +:+ b) eqn:E; simpl; rewrite orb_true_iff; left;
        apply startswith_true_iff; exists b; simpl; congruence.
    + rewrite IH. apply orb_true_r.
Qed.


Lemma contains_false_iff (q s : string) :
  contains q s = false <-> ~ substring_of q s.
Proof.
  rewrite <- contains_true_iff. destruct (contains q s); split; congruence.
Qed.

End PyFacts.

(** ** Dictionaries *)

Section DictFacts.
Context {V : Type}.
Implicit Types (d : dict V) (k : string) (v : V).

Lemma dict_has_true k d : dict_has k d = true <-> is_Some (dict_get k d).
Proof. unfold dict_has. rewrite bool_decide_eq_true. reflexivity. Qed.

Lemma dict_has_false k d : dict_has k d = false <-> dict_get k d = None.
Proof.
  unfold dict_has. rewrite bool_decide_eq_false, eq_None_not_Some. reflexivity.
Qed.

Lemma dict_get_set_eq k v d : dict_get k (dict_set k v d) = Some v.
Proof.
  induction d as [|[k' v'] d IH]; simpl.
  - rewrite decide_True; done.
  - destruct (decide (k = k')) as [->|Hne]; simpl.
    + rewrite decide_True; done.
    + rewrite decide_False; done.
Qed.

Lemma dict_get_set_ne k k' v d :
  k <> k' -> dict_get k' (dict_set k v d) = dict_get k' d.
Proof.
  intros Hne. induction d as [|[k0 v0] d IH]; simpl.
  - rewrite decide_False; done.
  - destruct (decide (k = k0)) as [->|Hne0]; simpl.
    + rewrite !decide_False; done.
    + rewrite IH. reflexivity.
Qed.

Lemma dict_keys_set_present k v d :
  is_Some (dict_get k d) -> dict_keys (dict_set k v d) = dict_keys d.
Proof.
  unfold dict_keys. induction d as [|[k0 v0] d IH]; simpl.
  - intros [? ?]; discriminate.
  - destruct (decide (k = k0)) as [->|Hne]; simpl; [done|].
    intros Hs. f_equal. apply IH, Hs.
Qed.

Lemma dict_keys_set_absent k v d :
  dict_get k d = None -> dict_keys (dict_set k v d) = dict_keys d ++ [k].
Proof.
  unfold dict_keys. induction d as [|[k0 v0] d IH]; simpl; [done|].
  destruct (decide (k = k0)) as [->|Hne]; simpl; [discriminate|].
  intros Hs. f_equal. apply IH, Hs.
Qed.

End DictFacts.

(** ** The merge loop *)

Section MergeFacts.
Implicit Types (ltm : dict (list Fact)) (mem : Entry) (pending : list Entry).

(** What one turn of the loop leaves under each key. *)
Lemma merge_one_get ltm mem c :
  dict_get c (merge_one ltm mem) =
    if decide (c = category mem) then
      let items := default [] (dict_get c ltm) in
      Some (if bool_decide (data mem ∈ map fact_data items) then items
            else items ++ [stored mem])
    else dict_get c ltm.
Proof.
  unfold merge_one.
  destruct (dict_has (category mem) ltm) eqn:Hhas.
  - apply dict_has_true in Hhas as [items Hitems].
    rewrite Hitems; simpl.
    destruct (decide (c = category mem)) as [->|Hne].
    + rewrite Hitems; simpl. case_bool_decide.
      * exact Hitems.
      * apply dict_get_set_eq.
    + case_bool_decide; [reflexivity|].
      apply dict_get_set_ne. congruence.
  - apply dict_has_false in Hhas.
    rewrite dict_get_set_eq; simpl.
    destruct (decide (c = category mem)) as [->|Hne].
    + rewrite Hhas; simpl.
        apply dict_get_set_eq.
    + rewrite !dict_get_set_ne by congruence. reflexivity.
Qed.

(** A pending fact whose data is already there leaves the memory as
    it was: no key is added and no list changes. *)
Lemma merge_one_duplicate ltm mem items :
  dict_get (category mem) ltm = Some items ->
  data mem ∈ map fact_data items ->
  merge_one ltm mem = ltm.
Proof.
  intros Hget Hin. unfold merge_one.
  assert (dict_has (category mem) ltm = true) as ->
    by (apply dict_has_true; eauto).
  rewrite Hget; simpl. rewrite bool_decide_eq_true_2; done.
Qed.

Lemma merge_one_keys ltm mem :
  dict_keys (merge_one ltm mem) =
    if dict_has (category mem) ltm then dict_keys ltm
    else dict_keys ltm ++ [category mem].
Proof.
  unfold merge_one.
  destruct (dict_has (category mem) ltm) eqn:Hhas.
  - case_bool_decide; [reflexivity|].
    apply dict_keys_set_present, dict_has_true, Hhas.
  - apply dict_has_false in Hhas.
    rewrite dict_get_set_eq; simpl.
    rewrite dict_keys_set_present by (rewrite dict_get_set_eq; eauto).
    apply dict_keys_set_absent, Hhas.
Qed.

Lemma merge_one_extends ltm mem c items :
  dict_get c ltm = Some items ->
  exists extra, dict_get c (merge_one ltm mem) = Some (items ++ extra).
Proof.
  intros Hget. rewrite merge_one_get.
  destruct (decide (c = category mem)) as [->|Hne].
  - rewrite Hget; simpl. case_bool_decide.
    + exists []. rewrite app_nil_r. reflexivity.
    + eauto.
  - exists []. rewrite app_nil_r. exact Hget.
Qed.

Lemma merge_all_extends pending ltm c items :
  dict_get c ltm = Some items ->
  exists extra,
    dict_get c (fold_left merge_one pending ltm) = Some (items ++ extra).
Proof.
  revert ltm items. induction pending as [|mem pending IH]; intros ltm items Hget.
  - exists []. rewrite app_nil_r. exact Hget.
  - simpl. destruct (merge_one_extends ltm mem c items Hget) as [e1 H1].
    destruct (IH _ _ H1) as [e2 H2].
    exists (e1 ++ e2). rewrite H2, app_assoc. reflexivity.
Qed.

Lemma merge_all_keys pending ltm :
  dict_keys ltm `prefix_of` dict_keys (fold_left merge_one pending ltm).
Proof.
  revert ltm. induction pending as [|mem pending IH]; intros ltm; simpl.
  - reflexivity.
  - etrans; [|apply IH]. rewrite merge_one_keys.
    destruct (dict_has (category mem) ltm); [reflexivity|].
    apply prefix_app_r. reflexivity.
Qed.

Lemma merge_one_unique ltm mem :
  unique_data ltm -> unique_data (merge_one ltm mem).
Proof.
  intros Huniq c items. rewrite merge_one_get.
  destruct (decide (c = category mem)) as [->|Hne]; [|apply Huniq].
  intros [= <-].
  assert (NoDup (map fact_data (default [] (dict_get (category mem) ltm))))
    as Hnd.
  { destruct (dict_get (category mem) ltm) as [old|] eqn:Hold; simpl.
    - eapply Huniq, Hold.
    - constructor. }
  case_bool_decide as Hin; [exact Hnd|].
  rewrite map_app; simpl. apply NoDup_app. split; [exact Hnd|]. split.
  - intros x Hx Hx'. apply list_elem_of_singleton in Hx' as ->. exact (Hin Hx).
  - apply NoDup_singleton.
Qed.

Lemma merge_all_unique pending ltm :
  unique_data ltm -> unique_data (fold_left merge_one pending ltm).
Proof.
  revert ltm. induction pending as [|mem pending IH]; intros ltm Huniq; simpl.
  - exact Huniq.
  - apply IH, merge_one_unique, Huniq.
Qed.

End MergeFacts.

(** ** Counting the stored items *)

Section CountFacts.
Implicit Types (ltm : dict (list Fact)) (mem : Entry).

Lemma all_facts_set_present k (v old : list Fact) ltm :
  dict_get k ltm = Some old ->
  (length (all_facts (dict_set k v ltm)) + length old
   = length (all_facts ltm) + length v)%nat.
Proof.
  unfold all_facts.
  induction ltm as [|[k0 v0] ltm IH]; simpl; [discriminate|].
  destruct (decide (k = k0)) as [->|Hne]; simpl.
  - intros [= ->]. rewrite !length_app, !length_map. lia.
  - intros Hget. specialize (IH Hget).
    rewrite !length_app, !length_map in *. lia.
Qed.

Lemma all_facts_set_absent k (v : list Fact) ltm :
  dict_get k ltm = None ->
  length (all_facts (dict_set k v ltm))
  = (length (all_facts ltm) + length v)%nat.
Proof.
  unfold all_facts.
  induction ltm as [|[k0 v0] ltm IH]; simpl.
  - intros _. rewrite length_app, length_map. simpl. lia.
  - destruct (decide (k = k0)) as [->|Hne]; simpl; [discriminate|].
    intros Hget. specialize (IH Hget).
    rewrite !length_app, !length_map in *. lia.
Qed.

(** One turn of the loop stores one more item, or none for a
    duplicate. *)
Lemma merge_one_count ltm mem :
  length (all_facts (merge_one ltm mem)) =
    (length (all_facts ltm) +
     if bool_decide (data mem ∈
          map fact_data (default [] (dict_get (category mem) ltm)))
     then 0 else 1)%nat.
Proof.
  unfold merge_one.
  destruct (dict_has (category mem) ltm) eqn:Hhas.
  - apply dict_has_true in Hhas as [items Hitems].
    rewrite Hitems; simpl. case_bool_decide; [lia|].
    pose proof (all_facts_set_present (category mem)
                  (items ++ [stored mem]) items ltm Hitems) as Hc.
    rewrite length_app in Hc. simpl in Hc. lia.
  - apply dict_has_false in Hhas.
    rewrite dict_get_set_eq, Hhas; simpl.
    pose proof (all_facts_set_present (category mem) [stored mem] []
                  (dict_set (category mem) [] ltm)
                  (dict_get_set_eq _ _ _)) as Hc.
    rewrite (all_facts_set_absent _ _ _ Hhas) in Hc.
    simpl in Hc. lia.
Qed.

Lemma merge_all_count_le pending ltm :
  (length (all_facts ltm)
   <= length (all_facts (fold_left merge_one pending ltm))
   <= length (all_facts ltm) + length pending)%nat.
Proof.
  revert ltm. induction pending as [|mem pending IH]; intros ltm; simpl.
  - lia.
  - specialize (IH (merge_one ltm mem)).
    rewrite merge_one_count in IH. case_bool_decide; lia.
Qed.

End CountFacts.

(** ** XP and level *)

Section LevelFacts.

Lemma xp_and_level_points count doc :
  0 <= count ->
  intelligence_points (xp_and_level count doc).1
  = intelligence_points doc + count * 50.
Proof.
  intros Hc. unfold xp_and_level.
  destruct (0 <? count) eqn:Hpos.
  - destruct (level doc <? _); reflexivity.
  - apply Z.ltb_ge in Hpos. simpl. lia.
Qed.

Lemma xp_and_level_zero doc : xp_and_level 0 doc = (doc, []).
Proof. reflexivity. Qed.

Lemma xp_and_level_level count doc :
  level (xp_and_level count doc).1 =
    if (0 <? count) && (level doc <? level_for (intelligence_points doc + count * 50))
    then level_for (intelligence_points doc + count * 50)
    else level doc.
Proof.
  unfold xp_and_level, level_for.
  destruct (0 <? count); simpl; [|reflexivity].
  destruct (level doc <? _); reflexivity.
Qed.

Lemma xp_and_level_frame count doc :
  master_info (xp_and_level count doc).1 = master_info doc /\
  long_term_memory (xp_and_level count doc).1 = long_term_memory doc.
Proof.
  unfold xp_and_level.
  destruct (0 <? count); [destruct (level doc <? _)|]; split; reflexivity.
Qed.

Lemma level_for_mono p q : p <= q -> level_for p <= level_for q.
Proof.
  intros Hpq. unfold level_for.
  pose proof (Z.div_le_mono p q 200 ltac:(lia) Hpq). lia.
Qed.

(** The equation between level and points is kept by the update. *)
Lemma xp_and_level_keeps count doc :
  0 <= count ->
  level doc = level_for (intelligence_points doc) ->
  level (xp_and_level count doc).1
  = level_for (intelligence_points (xp_and_level count doc).1).
Proof.
  intros Hc Hinv.
  rewrite xp_and_level_points by exact Hc.
  rewrite xp_and_level_level.
  destruct (0 <? count) eqn:Hpos; simpl.
  - destruct (level doc <? _) eqn:Hlt; [reflexivity|].
    apply Z.ltb_ge in Hlt.
    pose proof (level_for_mono (intelligence_points doc)
                  (intelligence_points doc + count * 50) ltac:(lia)).
    lia.
  - apply Z.ltb_ge in Hpos. replace count with 0 by lia.
    rewrite Z.add_0_r. exact Hinv.
Qed.

Lemma xp_and_level_never_lowers count doc :
  level doc <= level (xp_and_level count doc).1.
Proof.
  rewrite xp_and_level_level.
  destruct (0 <? count); simpl; [|lia].
  destruct (level doc <? _) eqn:Hlt; [|lia].
  apply Z.ltb_lt in Hlt. lia.
Qed.

End LevelFacts.

(** ** Leveling along a run *)

Section LevelRun.

Lemma level_run_step counts doc i count d d' :
  Forall (fun n => 0 <= n) counts ->
  level doc = level_for (intelligence_points doc) ->
  counts !! i = Some count ->
  level_run counts doc !! i = Some d ->
  level_run counts doc !! S i = Some d' ->
  level d = level_for (intelligence_points d)
  /\ d' = (xp_and_level count d).1.
Proof.
  intros Hpos. revert doc i.
  induction Hpos as [|n counts Hn Hpos IH]; intros doc i Hinv Hc Hd Hd'.
  - discriminate.
  - destruct i as [|i]; simpl in *.
    + injection Hc as ->. injection Hd as ->.
      split; [exact Hinv|].
      destruct counts; simpl in Hd'; congruence.
    + apply (IH (xp_and_level n doc).1 i); try assumption.
      apply xp_and_level_keeps; assumption.
Qed.

End LevelRun.

(** C3. The XP and level update is a function of the count and the
    document: for a non-negative count it adds [count * 50] points, and
    it changes the level only to 1 + floor(points / 200) of the new
    points and only when that is above the current level (for a
    positive count it does so whenever it is above).  Along every
    succession of non-negative counts applied from the blueprint
    (level 1, 50 points), each update sets the level to the larger of
    the old level and the level of the new points, never lowers the
    level, and leaves [level = 1 + floor(points / 200)]. *)
Theorem xp_and_level_run_from_blueprint :
  (forall (count : Z) (doc : Document),
     0 <= count ->
     let doc' := (xp_and_level count doc).1 in
     intelligence_points doc' = intelligence_points doc + count * 50
     /\ (level doc' <> level doc ->
         level doc' = 1 + intelligence_points doc' / 200
         /\ level doc < level doc')
     /\ (0 < count ->
         level doc' = Z.max (level doc) (1 + intelligence_points doc' / 200)))
  /\ (forall counts : list Z,
        Forall (fun n => 0 <= n) counts ->
        let trace := level_run counts DEFAULT_BRAIN_STRUCTURE in
        trace !! 0%nat = Some DEFAULT_BRAIN_STRUCTURE
        /\ forall (i : nat) (count : Z) (d d' : Document),
             counts !! i = Some count ->
             trace !! i = Some d ->
             trace !! S i = Some d' ->
             d' = (xp_and_level count d).1
             /\ intelligence_points d' = intelligence_points d + count * 50
             /\ level d' = Z.max (level d) (1 + intelligence_points d' / 200)
             /\ level d <= level d'
             /\ level d' = 1 + intelligence_points d' / 200).
Proof.
  split.
  - intros count doc Hcount doc'. subst doc'.
    pose proof (xp_and_level_points count doc Hcount) as Hpts.
    pose proof (xp_and_level_level count doc) as Hlvl.
    rewrite <- Hpts in Hlvl. unfold level_for in Hlvl.
    split; [exact Hpts|]. split.
    + intros Hchg.
      destruct (0 <? count); simpl in Hlvl; [|congruence].
      destruct (level doc <? _) eqn:Hlt; [|congruence].
      apply Z.ltb_lt in Hlt. lia.
    + intros Hpos. apply Z.ltb_lt in Hpos. rewrite Hpos in Hlvl.
      simpl in Hlvl.
      destruct (level doc <? _) eqn:Hlt;
        [apply Z.ltb_lt in Hlt | apply Z.ltb_ge in Hlt]; lia.
  - intros counts Hpos trace. split.
    + subst trace. destruct counts; reflexivity.
    + intros i count d d' Hc Hd Hd'.
      destruct (level_run_step counts DEFAULT_BRAIN_STRUCTURE i count d d'
                  Hpos eq_refl Hc Hd Hd') as [Hinv ->].
      assert (0 <= count) as Hcount
        by (eapply (proj1 (Forall_lookup _ _) Hpos); eauto).
      pose proof (xp_and_level_points count d Hcount) as Hpts.
      pose proof (xp_and_level_keeps count d Hcount Hinv) as Hkeep.
      pose proof (xp_and_level_never_lowers count d) as Hmono.
      unfold level_for in *.
      repeat split; try assumption.
      rewrite Hkeep. lia.
Qed.

Lemma xp_and_level_run_from_blueprint_witness :
  Forall (fun n => 0 <= n) [1; 0; 3]
  /\ level (xp_and_level 3 (xp_and_level 0
             (xp_and_level 1 DEFAULT_BRAIN_STRUCTURE).1).1).1 = 2.
Proof.
  assert (Forall (fun n => 0 <= n) [1; 0; 3]) as Hpos
    by (repeat constructor; lia).
  split; [exact Hpos|].
  destruct xp_and_level_run_from_blueprint as [_ Hruns].
  destruct (Hruns [1; 0; 3] Hpos) as [_ Hrun].
  destruct (Hrun 2%nat 3 _ _ eq_refl eq_refl eq_refl) as (_ & _ & _ & _ & Hlvl).
  rewrite Hlvl. reflexivity.
Defined.

(** ** The commit cycle in memory *)

Section CommitFacts.
Context `{JsonCodec}.
Implicit Types (app : MiniAI) (fs : Files) (fault : option io_fault).

(** The object left by [sleep_and_save] does not depend on the disk. *)
Lemma sleep_and_save_app fault fs app :
  (sleep_and_save fault fs app).1.2 = (merge_and_level app).1.
Proof.
  unfold sleep_and_save.
  destruct (merge_and_level app) as [app' said].
  destruct (backup_and_save fault (attributes app') fs); reflexivity.
Qed.

Lemma merge_and_level_attributes app :
  attributes (merge_and_level app).1
  = (xp_and_level (new_items app)
       (update_memory (short_term_memory app) (attributes app))).1.
Proof.
  unfold merge_and_level.
  destruct (xp_and_level _ _); reflexivity.
Qed.

Lemma merge_and_level_buffer app :
  short_term_memory (merge_and_level app).1 = [].
Proof.
  unfold merge_and_level.
  destruct (xp_and_level _ _); reflexivity.
Qed.

Lemma merge_and_level_memory app :
  long_term_memory (attributes (merge_and_level app).1)
  = Some (fold_left merge_one (short_term_memory app)
            (memories_of (attributes app))).
Proof.
  rewrite merge_and_level_attributes.
  rewrite (proj2 (xp_and_level_frame _ _)). reflexivity.
Qed.

Lemma merge_and_level_memories app :
  memories_of (attributes (merge_and_level app).1)
  = fold_left merge_one (short_term_memory app)
      (memories_of (attributes app)).
Proof. unfold memories_of at 1. rewrite merge_and_level_memory. reflexivity. Qed.

Lemma merge_and_level_master_info app :
  master_info (attributes (merge_and_level app).1)
  = master_info (attributes app).
Proof.
  rewrite merge_and_level_attributes.
  rewrite (proj1 (xp_and_level_frame _ _)). reflexivity.
Qed.

Lemma new_items_nonneg app : 0 <= new_items app.
Proof. unfold new_items. lia. Qed.

Lemma merge_and_level_points app :
  intelligence_points (attributes (merge_and_level app).1)
  = intelligence_points (attributes app) + new_items app * 50.
Proof.
  rewrite merge_and_level_attributes.
  rewrite xp_and_level_points by apply new_items_nonneg. reflexivity.
Qed.

Lemma merge_and_level_appended app :
  0 <= facts_appended (attributes app) (attributes (merge_and_level app).1)
    <= new_items app.
Proof.
  unfold facts_appended, fact_count, new_items.
  rewrite merge_and_level_memories.
  pose proof (merge_all_count_le (short_term_memory app)
                (memories_of (attributes app))).
  lia.
Qed.

(** After one turn of the loop the data of the pending fact is in
    its category's list. *)
Lemma merge_one_then_present ltm (mem : Entry) :
  data mem ∈ map fact_data
    (default [] (dict_get (category mem) (merge_one ltm mem))).
Proof.
  rewrite merge_one_get, decide_True by reflexivity. simpl.
  case_bool_decide as Hin; [exact Hin|].
  rewrite map_app. apply elem_of_app. right. simpl. left.
Qed.

End CommitFacts.

(** C1 (as the code has it). The count that drives the leveling is the
    number of pending facts, duplicates included, and not the number of
    facts appended: the facts appended are at most that many; the points
    grow by fifty times the count; the same pair staged twice gives the
    count 2 (with one fact appended when the pair is new); a pair that
    the category already holds gives the count 1 with nothing appended;
    and when the count is 0 points and level stay as they were. *)
Theorem sleep_and_save_counts_pending `{JsonCodec}
    (fault : option io_fault) (fs : Files) (app : MiniAI) :
  let after := attributes (sleep_and_save fault fs app).1.2 in
  new_items app = Z.of_nat (length (short_term_memory app))
  /\ 0 <= facts_appended (attributes app) after <= new_items app
  /\ intelligence_points after
     = intelligence_points (attributes app) + new_items app * 50
  /\ (new_items app = 0 ->
      intelligence_points after = intelligence_points (attributes app)
      /\ level after = level (attributes app))
  /\ (forall t1 t2 cat content : string,
        short_term_memory app = [] ->
        let twice := learn t2 cat content (learn t1 cat content app) in
        new_items twice = 2
        /\ facts_appended (attributes twice)
             (attributes (sleep_and_save fault fs twice).1.2)
           = if bool_decide
                  (content ∈ map fact_data
                     (default [] (dict_get cat (memories_of (attributes app)))))
             then 0 else 1)
  /\ (forall (t cat content : string) (items : list Fact),
        short_term_memory app = [] ->
        dict_get cat (memories_of (attributes app)) = Some items ->
        content ∈ map fact_data items ->
        let again := learn t cat content app in
        new_items again = 1
        /\ facts_appended (attributes again)
             (attributes (sleep_and_save fault fs again).1.2) = 0
        /\ intelligence_points (attributes (sleep_and_save fault fs again).1.2)
           = intelligence_points (attributes app) + 50).
Proof.
  intros after. subst after. rewrite sleep_and_save_app.
  split; [reflexivity|].
  split; [apply merge_and_level_appended|].
  split; [apply merge_and_level_points|].
  split; [|split].
  - intros Hzero.
    rewrite merge_and_level_attributes, Hzero. simpl. split; reflexivity.
  - intros t1 t2 cat content Hempty twice. subst twice.
    rewrite sleep_and_save_app.
    unfold new_items, facts_appended, fact_count.
    rewrite merge_and_level_memories. unfold learn; simpl.
    rewrite Hempty; simpl. split; [reflexivity|].
    rewrite merge_one_count; simpl.
    rewrite (bool_decide_eq_true_2 _
               (merge_one_then_present (memories_of (attributes app))
                  (mkEntry cat content t1))).
    rewrite merge_one_count; simpl.
    case_bool_decide; lia.
  - intros t cat content items Hempty Hget Hin again. subst again.
    rewrite !sleep_and_save_app, merge_and_level_points.
    unfold new_items, facts_appended, fact_count.
    rewrite merge_and_level_memories. unfold learn; simpl.
    rewrite Hempty; simpl. split; [reflexivity|].
    rewrite (merge_one_duplicate _ (mkEntry cat content t) items Hget Hin).
    split; lia.
Qed.

(** C1, the claim as worded fails: with the same pair staged twice the
    count is 2 while one fact is appended, and the points grow by 100;
    with a pair already stored the count is 1 while nothing is
    appended, and the points go from 150 to 200 and the level from 1
    to 2. *)
Lemma sleep_and_save_counts_duplicates :
  let after :=
    attributes (sleep_and_save (H := no_table) None ∅ engine_twice).1.2 in
  let after' :=
    attributes (sleep_and_save (H := no_table) None ∅ engine_again).1.2 in
  (new_items engine_twice = 2
   /\ facts_appended (attributes engine_twice) after = 1
   /\ intelligence_points (attributes engine_twice) = 50
   /\ intelligence_points after = 150)
  /\ (new_items engine_again = 1
      /\ facts_appended (attributes engine_again) after' = 0
      /\ intelligence_points (attributes engine_again) = 150
      /\ intelligence_points after' = 200
      /\ level (attributes engine_again) = 1
      /\ level after' = 2).
Proof. vm_compute. repeat split; reflexivity. Qed.

Lemma sleep_and_save_counts_pending_witness :
  let app := {| short_term_memory := []; attributes := example_doc |} in
  intelligence_points
    (attributes (sleep_and_save (H := no_table) None ∅ app).1.2) = 150
  /\ level (attributes (sleep_and_save (H := no_table) None ∅ app).1.2) = 1.
Proof.
  intros app.
  destruct (sleep_and_save_counts_pending (H := no_table) None ∅ app)
    as (_ & _ & _ & Hzero & _).
  exact (Hzero eq_refl).
Defined.

(** ** Sessions *)

Section SessionFacts.
Context `{JsonCodec}.
Implicit Types (app : MiniAI) (fs : Files) (fault : option io_fault).

Lemma only_appended_refl doc : only_appended doc doc.
Proof.
  split; [reflexivity|]. split; [reflexivity|].
  intros cat items Hget. exists []. rewrite app_nil_r. exact Hget.
Qed.

Lemma only_appended_trans d1 d2 d3 :
  only_appended d1 d2 -> only_appended d2 d3 -> only_appended d1 d3.
Proof.
  intros (Hm1 & Hk1 & Hg1) (Hm2 & Hk2 & Hg2).
  split; [congruence|]. split; [etrans; eassumption|].
  intros cat items Hget.
  destruct (Hg1 _ _ Hget) as [e1 H1].
  destruct (Hg2 _ _ H1) as [e2 H2].
  exists (e1 ++ e2). rewrite H2, app_assoc. reflexivity.
Qed.

Lemma merge_and_level_only_appends app :
  only_appended (attributes app) (attributes (merge_and_level app).1).
Proof.
  split; [apply merge_and_level_master_info|].
  rewrite merge_and_level_memories. split.
  - apply merge_all_keys.
  - intros cat items. apply merge_all_extends.
Qed.

Lemma step_attributes_learn_recall cmd fs app :
  (forall fault, cmd <> Sleep fault) ->
  attributes (step cmd (fs, app)).1.2 = attributes app.
Proof.
  destruct cmd as [now cat knowledge|typed|fault]; intros Hcmd;
    [reflexivity|reflexivity|].
  destruct (Hcmd fault eq_refl).
Qed.

Lemma step_only_appends cmd fs app :
  only_appended (attributes app) (attributes (step cmd (fs, app)).1.2).
Proof.
  destruct cmd as [now cat knowledge|typed|fault]; simpl.
  - apply only_appended_refl.
  - apply only_appended_refl.
  - rewrite sleep_and_save_app. apply merge_and_level_only_appends.
Qed.

Lemma run_only_appends cmds fs app :
  only_appended (attributes app) (attributes (run cmds (fs, app)).2).
Proof.
  revert fs app. induction cmds as [|cmd cmds IH]; intros fs app; simpl.
  - apply only_appended_refl.
  - destruct (step cmd (fs, app)) as [[fs' app'] said] eqn:Hstep. simpl.
    eapply only_appended_trans; [|apply IH].
    pose proof (step_only_appends cmd fs app) as Hs.
    rewrite Hstep in Hs. exact Hs.
Qed.

Lemma step_keeps_unique cmd fs app :
  unique_data (memories_of (attributes app)) ->
  unique_data (memories_of (attributes (step cmd (fs, app)).1.2)).
Proof.
  destruct cmd as [now cat knowledge|typed|fault]; simpl; try done.
  intros Huniq. rewrite sleep_and_save_app, merge_and_level_memories.
  apply merge_all_unique, Huniq.
Qed.

Lemma run_keeps_unique cmds fs app :
  unique_data (memories_of (attributes app)) ->
  unique_data (memories_of (attributes (run cmds (fs, app)).2)).
Proof.
  revert fs app. induction cmds as [|cmd cmds IH]; intros fs app Huniq; simpl.
  - exact Huniq.
  - destruct (step cmd (fs, app)) as [[fs' app'] said] eqn:Hstep. simpl.
    apply IH.
    pose proof (step_keeps_unique cmd fs app Huniq) as Hs.
    rewrite Hstep in Hs. exact Hs.
Qed.

Lemma blueprint_unique :
  unique_data (memories_of DEFAULT_BRAIN_STRUCTURE).
Proof.
  intros cat items. simpl. case_decide; [|discriminate].
  intros [= <-]. simpl. apply NoDup_singleton.
Qed.

Lemma MiniAI_init_fresh fs :
  fs !! FILENAME = None ->
  MiniAI_init fs
  = (<[FILENAME := json_dump DEFAULT_BRAIN_STRUCTURE]> fs,
     Returns {| short_term_memory := [];
                attributes := DEFAULT_BRAIN_STRUCTURE |}).
Proof.
  intros Hnone. unfold MiniAI_init, load_brain. rewrite Hnone. reflexivity.
Qed.

End SessionFacts.

(** C2. In a commit the pending facts are taken in arrival order; each
    is put at the end of its category's list (an empty list on first
    use of the category) if and only if no item of that list has the
    same data, and is dropped otherwise, leaving the memory as it was.
    So a commit keeps the categories free of repeated data, and they
    are free of it after every command of a session that starts from
    the blueprint. *)
Theorem sleep_and_save_appends_unless_duplicate `{JsonCodec} :
  (forall (ltm : dict (list Fact)) (mem : Entry),
     let items := default [] (dict_get (category mem) ltm) in
     (dict_get (category mem) (merge_one ltm mem)
      = Some (items ++ [stored mem])
      <-> data mem ∉ map fact_data items)
     /\ (data mem ∈ map fact_data items -> merge_one ltm mem = ltm)
     /\ (dict_get (category mem) ltm = None ->
         dict_get (category mem) (merge_one ltm mem) = Some [stored mem])
     /\ (forall cat, cat <> category mem ->
         dict_get cat (merge_one ltm mem) = dict_get cat ltm))
  /\ (forall (fault : option io_fault) (fs : Files) (app : MiniAI),
        let after := memories_of (attributes (sleep_and_save fault fs app).1.2) in
        after = fold_left merge_one (short_term_memory app)
                  (memories_of (attributes app))
        /\ (unique_data (memories_of (attributes app)) -> unique_data after))
  /\ (forall (fs : Files) (cmds : list command) (fs0 : Files) (app0 : MiniAI),
        fs !! FILENAME = None ->
        MiniAI_init fs = (fs0, Returns app0) ->
        unique_data (memories_of (attributes (run cmds (fs0, app0)).2))).
Proof.
  split; [|split].
  - intros ltm mem items. subst items.
    pose proof (merge_one_get ltm mem (category mem)) as Hget.
    rewrite decide_True in Hget by reflexivity. simpl in Hget.
    split; [|split; [|split]].
    + rewrite Hget. case_bool_decide as Hin.
      * split; [|done]. intros [= Heq].
        apply (f_equal length) in Heq. rewrite length_app in Heq.
        simpl in Heq. lia.
      * split; [done|reflexivity].
    + intros Hin.
      destruct (dict_get (category mem) ltm) as [items|] eqn:Hitems.
      * eapply merge_one_duplicate; eauto.
      * simpl in Hin. apply not_elem_of_nil in Hin. destruct Hin.
    + intros Hnone. rewrite Hget, Hnone. reflexivity.
    + intros cat Hne. rewrite merge_one_get, decide_False by exact Hne.
      reflexivity.
  - intros fault fs app after. subst after.
    rewrite sleep_and_save_app, merge_and_level_memories.
    split; [reflexivity|apply merge_all_unique].
  - intros fs cmds fs0 app0 Hnone Hinit.
    rewrite (MiniAI_init_fresh fs Hnone) in Hinit.
    injection Hinit as <- <-.
    apply run_keeps_unique, blueprint_unique.
Qed.

Lemma sleep_and_save_appends_unless_duplicate_witness :
  unique_data
    (memories_of
       (attributes
          (run (H := no_table)
             [Learn "2026-01-26 10:00:02" "ENGINE" "IGBT driver uses TC4420CPA";
              Learn "2026-01-26 10:00:03" "ENGINE" "IGBT driver uses TC4420CPA";
              Sleep None]
             (<[FILENAME := json_dump (JsonCodec := no_table) DEFAULT_BRAIN_STRUCTURE]> ∅,
              {| short_term_memory := [];
                 attributes := DEFAULT_BRAIN_STRUCTURE |})).2)).
Proof.
  destruct (sleep_and_save_appends_unless_duplicate (H := no_table))
    as (_ & _ & Hrun).
  apply (Hrun ∅); [reflexivity|].
  apply (MiniAI_init_fresh (H := no_table)). reflexivity.
Defined.

(** C9. No command of the store (learning, recalling, saving) changes
    the profile, drops a category, or removes, alters or reorders an
    item already stored: learning and recalling leave the document as
    it is, and saving only appends to category lists and adds new
    categories after the old ones.  The same holds from the start to
    the end of any succession of commands. *)
Theorem store_only_appends `{JsonCodec} :
  (forall (cmd : command) (fs : Files) (app : MiniAI),
     let app' := (step cmd (fs, app)).1.2 in
     master_info (attributes app') = master_info (attributes app)
     /\ dict_keys (memories_of (attributes app))
          `prefix_of` dict_keys (memories_of (attributes app'))
     /\ (forall cat items,
           dict_get cat (memories_of (attributes app)) = Some items ->
           exists extra,
             dict_get cat (memories_of (attributes app'))
             = Some (items ++ extra))
     /\ ((forall fault, cmd <> Sleep fault) ->
         attributes app' = attributes app))
  /\ (forall (cmds : list command) (fs : Files) (app : MiniAI),
        only_appended (attributes app) (attributes (run cmds (fs, app)).2)).
Proof.
  split.
  - intros cmd fs app app'. subst app'.
    destruct (step_only_appends cmd fs app) as (Hm & Hk & Hg).
    split; [exact Hm|]. split; [exact Hk|]. split; [exact Hg|].
    apply step_attributes_learn_recall.
  - intros cmds fs app. apply run_only_appends.
Qed.

Lemma store_only_appends_witness :
  attributes
    (step (H := no_table) (Recall "engine")
       (∅, {| short_term_memory := []; attributes := example_doc |})).1.2
  = example_doc.
Proof.
  destruct (store_only_appends (H := no_table)) as [Hstep _].
  destruct (Hstep (Recall "engine") ∅
              {| short_term_memory := []; attributes := example_doc |})
    as (_ & _ & _ & Hsame).
  apply Hsame. intros fault. discriminate.
Defined.

(** ** Saving to disk *)

Section SaveFacts.
Context `{JsonCodec}.
Implicit Types (app : MiniAI) (fs : Files) (fault : option io_fault).

Lemma names_differ : FILENAME <> BACKUP_FILENAME.
Proof. discriminate. Qed.

Lemma backup_and_save_report fault doc fs :
  (backup_and_save fault doc fs).2
  = if strikes fault fs then MsgError else MsgSaved.
Proof.
  unfold backup_and_save, strikes.
  destruct (fs !! FILENAME) as [current|] eqn:Hcur.
  - rewrite bool_decide_eq_true_2 by eauto.
    destruct fault as [[| |partial]|]; reflexivity.
  - rewrite bool_decide_eq_false_2 by (intros [? ?]; discriminate).
    destruct fault as [[| |partial]|]; reflexivity.
Qed.

Lemma sleep_and_save_said fault fs app :
  (sleep_and_save fault fs app).2
  = (merge_and_level app).2
      ++ [if strikes fault fs then MsgError else MsgSaved].
Proof.
  unfold sleep_and_save.
  destruct (merge_and_level app) as [app' said].
  pose proof (backup_and_save_report fault (attributes app') fs) as Hrep.
  destruct (backup_and_save fault (attributes app') fs) as [fs' report].
  simpl in *. rewrite Hrep. reflexivity.
Qed.

Lemma sleep_and_save_files fault fs app :
  (sleep_and_save fault fs app).1.1
  = (backup_and_save fault (attributes (merge_and_level app).1) fs).1.
Proof.
  unfold sleep_and_save.
  destruct (merge_and_level app) as [app' said]. simpl.
  destruct (backup_and_save fault (attributes app') fs); reflexivity.
Qed.

(** A save that meets no fault: the old primary text becomes the
    backup, the new document becomes the primary text. *)
Lemma backup_and_save_clean fault doc fs :
  strikes fault fs = false ->
  (backup_and_save fault doc fs).1 !! FILENAME = Some (json_dump doc)
  /\ (backup_and_save fault doc fs).1 !! BACKUP_FILENAME
     = match fs !! FILENAME with
       | Some current => Some current
       | None => fs !! BACKUP_FILENAME
       end.
Proof.
  unfold backup_and_save, strikes.
  destruct (fs !! FILENAME) as [current|] eqn:Hcur.
  - rewrite bool_decide_eq_true_2 by eauto.
    destruct fault as [[| |partial]|]; try discriminate. intros _. simpl.
    rewrite lookup_insert_eq.
    rewrite lookup_insert_ne by apply names_differ.
    rewrite lookup_insert_eq. split; reflexivity.
  - rewrite bool_decide_eq_false_2 by (intros [? ?]; discriminate).
    destruct fault as [[| |partial]|]; try discriminate; intros _; simpl;
      rewrite lookup_insert_eq;
      rewrite lookup_insert_ne by apply names_differ;
      split; reflexivity.
Qed.

Lemma commit_batch_files batch (st : Files * MiniAI) :
  (commit_batch batch st).1 !! FILENAME
  = Some (json_dump (attributes (commit_batch batch st).2))
  /\ (commit_batch batch st).1 !! BACKUP_FILENAME
     = match st.1 !! FILENAME with
       | Some current => Some current
       | None => st.1 !! BACKUP_FILENAME
       end.
Proof.
  unfold commit_batch.
  set (app := fold_left _ batch st.2).
  rewrite sleep_and_save_files, sleep_and_save_app.
  apply backup_and_save_clean. reflexivity.
Qed.

Lemma commits_step batches (st : Files * MiniAI) N prev cur :
  is_Some (st.1 !! FILENAME) ->
  commits batches st !! N = Some prev ->
  commits batches st !! S N = Some cur ->
  is_Some (prev.1 !! FILENAME)
  /\ cur.1 !! BACKUP_FILENAME = prev.1 !! FILENAME
  /\ cur.1 !! FILENAME = Some (json_dump (attributes cur.2)).
Proof.
  revert st N. induction batches as [|batch batches IH]; intros st N Hst Hp Hc.
  - simpl in Hc. discriminate.
  - destruct (commit_batch_files batch st) as [Hprim Hback].
    destruct N as [|N]; simpl in Hp, Hc.
    + injection Hp as <-.
      assert (cur = commit_batch batch st) as ->
        by (destruct batches; simpl in Hc; congruence).
      split; [exact Hst|]. split; [|exact Hprim].
      rewrite Hback. destruct Hst as [current ->]. reflexivity.
    + apply (IH (commit_batch batch st) N); try assumption.
      rewrite Hprim. eauto.
Qed.

Lemma MiniAI_init_files fs fs0 app0 :
  MiniAI_init fs = (fs0, Returns app0) ->
  is_Some (fs0 !! FILENAME)
  /\ fs0 !! BACKUP_FILENAME = fs !! BACKUP_FILENAME.
Proof.
  unfold MiniAI_init, load_brain, create_new_brain.
  destruct (fs !! FILENAME) as [text|] eqn:Hprim.
  - destruct (json_load text) as [doc|].
    + intros [= <- <-]. split; [eauto|reflexivity].
    + destruct (fs !! BACKUP_FILENAME) as [saved|] eqn:Hback.
      * destruct (json_load saved) as [doc|]; [|discriminate].
        intros [= <- <-]. rewrite lookup_insert_eq.
        rewrite lookup_insert_ne by apply names_differ. split; [eauto|exact Hback].
      * intros [= <- <-]. rewrite lookup_insert_eq.
        rewrite lookup_insert_ne by apply names_differ. split; [eauto|exact Hback].
  - intros [= <- <-]. rewrite lookup_insert_eq.
    rewrite lookup_insert_ne by apply names_differ. split; [eauto|reflexivity].
Qed.

End SaveFacts.

(** C5. A save that meets no I/O error first copies the primary file
    as it stands to the backup file (nothing is copied when there is no
    primary file) and then writes the document to the primary file.  So
    in a session, after each of N successive such saves the backup file
    holds the text the primary file had after the save before (after
    start-up, for the first save), never the text being written; and
    with no save yet the backup is as start-up found it: absent in a
    directory without one. *)
Theorem backup_is_previous_primary `{JsonCodec} :
  (forall (fault : option io_fault) (fs : Files) (app : MiniAI),
     strikes fault fs = false ->
     let fs' := (sleep_and_save fault fs app).1.1 in
     let app' := (sleep_and_save fault fs app).1.2 in
     fs' !! FILENAME = Some (json_dump (attributes app'))
     /\ fs' !! BACKUP_FILENAME
        = match fs !! FILENAME with
          | Some current => Some current
          | None => fs !! BACKUP_FILENAME
          end)
  /\ (forall (fs fs0 : Files) (app0 : MiniAI) (batches : list (list Entry)),
        MiniAI_init fs = (fs0, Returns app0) ->
        let trace := commits batches (fs0, app0) in
        trace !! 0%nat = Some (fs0, app0)
        /\ fs0 !! BACKUP_FILENAME = fs !! BACKUP_FILENAME
        /\ forall (N : nat) (prev cur : Files * MiniAI),
             trace !! N = Some prev ->
             trace !! S N = Some cur ->
             is_Some (prev.1 !! FILENAME)
             /\ cur.1 !! BACKUP_FILENAME = prev.1 !! FILENAME
             /\ cur.1 !! FILENAME = Some (json_dump (attributes cur.2))).
Proof.
  split.
  - intros fault fs app Hclean fs' app'. subst fs' app'.
    rewrite sleep_and_save_files, sleep_and_save_app.
    apply backup_and_save_clean, Hclean.
  - intros fs fs0 app0 batches Hinit trace.
    destruct (MiniAI_init_files fs fs0 app0 Hinit) as [Hprim Hback].
    split; [subst trace; destruct batches; reflexivity|].
    split; [exact Hback|].
    intros N prev cur. apply commits_step. exact Hprim.
Qed.

Lemma backup_is_previous_primary_witness :
  let start := MiniAI_init (H := no_table) ∅ in
  let first :=
    sleep_and_save (H := no_table) None start.1
      (learn "2026-01-26 10:00:02" "ENGINE" "IGBT driver uses TC4420CPA"
         {| short_term_memory := [];
            attributes := DEFAULT_BRAIN_STRUCTURE |}) in
  start.1 !! BACKUP_FILENAME = None
  /\ first.1.1 !! BACKUP_FILENAME
     = Some (json_dump (JsonCodec := no_table) DEFAULT_BRAIN_STRUCTURE).
Proof.
  intros start first. split; [reflexivity|].
  destruct (backup_is_previous_primary (H := no_table)) as [Hsave _].
  destruct (Hsave None start.1
              (learn "2026-01-26 10:00:02" "ENGINE" "IGBT driver uses TC4420CPA"
                 {| short_term_memory := [];
                    attributes := DEFAULT_BRAIN_STRUCTURE |}) eq_refl)
    as [_ Hback].
  subst first. rewrite Hback. reflexivity.
Defined.

(** C6. In a directory without primary file a fresh run builds the
    blueprint: always the same document (the fixed profile, level 1,
    50 points, the one category CORE_DIRECTIVE with its one item dated
    2026-01-26), written as the new primary file and returned; any two
    such runs give the same document and the same primary text. *)
Theorem create_new_brain_is_fixed `{JsonCodec} (fs : Files) :
  fs !! FILENAME = None ->
  create_new_brain DEFAULT_BRAIN_STRUCTURE fs
  = (<[FILENAME := json_dump DEFAULT_BRAIN_STRUCTURE]> fs,
     DEFAULT_BRAIN_STRUCTURE)
  /\ MiniAI_init fs
     = (<[FILENAME := json_dump DEFAULT_BRAIN_STRUCTURE]> fs,
        Returns {| short_term_memory := [];
                   attributes := DEFAULT_BRAIN_STRUCTURE |})
  /\ master_info DEFAULT_BRAIN_STRUCTURE
     = {| name := "Achmed Davids";
          access_level := "Soul Master";
          location := "Mitchell's Plain, CP" |}
  /\ level DEFAULT_BRAIN_STRUCTURE = 1
  /\ intelligence_points DEFAULT_BRAIN_STRUCTURE = 50
  /\ (exists seeded : string,
        long_term_memory DEFAULT_BRAIN_STRUCTURE
        = Some [("CORE_DIRECTIVE", [mkFact None seeded "2026-01-26"])])
  /\ (forall fs2 : Files,
        fs2 !! FILENAME = None ->
        (MiniAI_init fs2).2 = (MiniAI_init fs).2
        /\ (MiniAI_init fs2).1 !! FILENAME = (MiniAI_init fs).1 !! FILENAME).
Proof.
  intros Hnone.
  split; [reflexivity|].
  split; [apply MiniAI_init_fresh, Hnone|].
  split; [reflexivity|]. split; [reflexivity|]. split; [reflexivity|].
  split; [eexists; reflexivity|].
  intros fs2 Hnone2.
  rewrite (MiniAI_init_fresh fs Hnone), (MiniAI_init_fresh fs2 Hnone2). simpl.
  rewrite !lookup_insert_eq. split; reflexivity.
Qed.

Lemma create_new_brain_is_fixed_witness :
  MiniAI_init (H := no_table) ∅
  = (<[FILENAME := json_dump (JsonCodec := no_table) DEFAULT_BRAIN_STRUCTURE]> ∅,
     Returns {| short_term_memory := [];
                attributes := DEFAULT_BRAIN_STRUCTURE |}).
Proof.
  destruct (create_new_brain_is_fixed (H := no_table) ∅ (lookup_empty FILENAME))
    as (_ & Hinit & _).
  exact Hinit.
Defined.

(** C8. Whatever happens to the write, [sleep_and_save] returns with an
    empty buffer and with the same object as a save without fault: the
    document with the pending facts merged in.  Its last line reports
    the save, as an error exactly when the fault was met; the facts
    that were pending are not put back. *)
Theorem sleep_and_save_clears_buffer `{JsonCodec}
    (fault : option io_fault) (fs : Files) (app : MiniAI) :
  let app' := (sleep_and_save fault fs app).1.2 in
  short_term_memory app' = []
  /\ app' = (sleep_and_save None fs app).1.2
  /\ memories_of (attributes app')
     = fold_left merge_one (short_term_memory app)
         (memories_of (attributes app))
  /\ last (sleep_and_save fault fs app).2
     = Some (if strikes fault fs then MsgError else MsgSaved)
  /\ strikes (Some OpenFails) fs = true
  /\ (forall partial, strikes (Some (DumpFails partial)) fs = true)
  /\ (is_Some (fs !! FILENAME) -> strikes (Some CopyFails) fs = true).
Proof.
  intros app'. subst app'.
  rewrite !sleep_and_save_app.
  split; [apply merge_and_level_buffer|].
  split; [reflexivity|].
  split; [apply merge_and_level_memories|].
  split; [rewrite sleep_and_save_said; apply last_snoc|].
  split; [reflexivity|]. split; [reflexivity|].
  intros Hsome. simpl. apply bool_decide_eq_true_2, Hsome.
Qed.

(** C4, the failing case. When the primary file does not parse and the
    backup file exists but does not parse either, [load_brain] copies
    the backup over the primary and raises [JSONDecodeError]: the second
    [json.load] is outside the [try], and the blueprint is not used. *)
Theorem load_brain_corrupt_backup_raises `{JsonCodec}
    (blueprint : Document) (fs : Files) (text saved : string) :
  fs !! FILENAME = Some text ->
  json_load text = None ->
  fs !! BACKUP_FILENAME = Some saved ->
  json_load saved = None ->
  load_brain blueprint fs = (<[FILENAME := saved]> fs, Raises JSONDecodeError).
Proof.
  intros Hprim Htext Hback Hsaved.
  unfold load_brain. rewrite Hprim, Htext, Hback, Hsaved. reflexivity.
Qed.

Lemma load_brain_corrupt_backup_raises_witness :
  let fs : Files := <[FILENAME := "{"]> (<[BACKUP_FILENAME := "{"]> ∅) in
  load_brain (H := no_table) DEFAULT_BRAIN_STRUCTURE fs
  = (<[FILENAME := "{"]> fs, Raises JSONDecodeError).
Proof.
  intros fs.
  apply (load_brain_corrupt_backup_raises (H := no_table)
           DEFAULT_BRAIN_STRUCTURE fs "{" "{");
    reflexivity.
Defined.

(** The cases in which [load_brain] does return. *)
Lemma load_brain_returns `{JsonCodec} (blueprint : Document) (fs : Files) :
  (forall text doc,
     fs !! FILENAME = Some text -> json_load text = Some doc ->
     load_brain blueprint fs = (fs, Returns doc))
  /\ (forall text saved doc,
        fs !! FILENAME = Some text -> json_load text = None ->
        fs !! BACKUP_FILENAME = Some saved -> json_load saved = Some doc ->
        load_brain blueprint fs = (<[FILENAME := saved]> fs, Returns doc))
  /\ (forall text,
        fs !! FILENAME = Some text -> json_load text = None ->
        fs !! BACKUP_FILENAME = None ->
        load_brain blueprint fs
        = (<[FILENAME := json_dump blueprint]> fs, Returns blueprint))
  /\ (fs !! FILENAME = None ->
      load_brain blueprint fs
      = (<[FILENAME := json_dump blueprint]> fs, Returns blueprint)).
Proof.
  unfold load_brain, create_new_brain.
  split; [|split; [|split]].
  - intros text doc -> ->. reflexivity.
  - intros text saved doc -> -> -> ->. reflexivity.
  - intros text -> -> ->. reflexivity.
  - intros ->. reflexivity.
Qed.

(** ** Recall *)

Section RecallFacts.
Import Py PyFacts.
Implicit Types (h : Hit) (items : list Fact) (memories : dict (list Fact)).

Lemma elem_of_recall_category query cat items h :
  h ∈ recall_category query cat items
  <-> hit_cat h = cat /\ hit_item h ∈ items /\ reported_as query h.
Proof.
  unfold recall_category, reported_as.
  destruct (contains query (lower cat)) eqn:Hcat.
  - apply contains_true_iff in Hcat.
    rewrite list_elem_of_In, in_map_iff. split.
    + intros (item & <- & Hin). simpl.
      split; [reflexivity|]. split; [apply list_elem_of_In, Hin|].
      left. split; [exact Hcat|reflexivity].
    + intros (<- & Hin & [[_ Hkind]|[Hno _]]); [|contradiction].
      exists (hit_item h). split; [|apply list_elem_of_In, Hin].
      destruct h; simpl in *; congruence.
  - apply contains_false_iff in Hcat.
    rewrite list_elem_of_In, in_map_iff. split.
    + intros (item & <- & Hin). simpl.
      apply filter_In in Hin as [Hin Hdata].
      apply contains_true_iff in Hdata.
      split; [reflexivity|]. split; [apply list_elem_of_In, Hin|].
      right. split; [exact Hcat|]. split; [exact Hdata|reflexivity].
    + intros (<- & Hin & [[Hyes _]|(_ & Hdata & Hkind)]); [contradiction|].
      exists (hit_item h). split; [destruct h; simpl in *; congruence|].
      apply filter_In. split; [apply list_elem_of_In, Hin|].
      apply contains_true_iff, Hdata.
Qed.

Lemma elem_of_recall_hits typed app h :
  h ∈ recall_hits typed app
  <-> exists items,
        (hit_cat h, items) ∈ memories_of (attributes app)
        /\ hit_item h ∈ items
        /\ reported_as (strip (lower typed)) h.
Proof.
  unfold recall_hits. rewrite list_elem_of_In, in_flat_map. split.
  - intros ([cat items] & Hmem & Hin).
    apply list_elem_of_In, elem_of_recall_category in Hin
      as (<- & Hitem & Hrep).
    exists items. split; [apply list_elem_of_In, Hmem|]. split; assumption.
  - intros (items & Hmem & Hitem & Hrep).
    exists (hit_cat h, items). split; [apply list_elem_of_In, Hmem|].
    apply list_elem_of_In, elem_of_recall_category.
    split; [reflexivity|]. split; assumption.
Qed.

Lemma filter_reports_sublist (keep : Fact -> bool) (cat : string) items :
  map (pair cat) (List.filter keep items) `sublist_of` map (pair cat) items.
Proof.
  induction items as [|item items IH]; simpl; [constructor|].
  destruct (keep item); simpl; [apply sublist_skip | apply sublist_cons]; exact IH.
Qed.

Lemma recall_category_sublist query (cat : string) items :
  map report_of (recall_category query cat items)
    `sublist_of` map (pair cat) items.
Proof.
  unfold recall_category.
  destruct (contains query (lower cat)).
  - rewrite map_map. simpl. reflexivity.
  - rewrite map_map.
    exact (filter_reports_sublist
             (fun item => contains query (lower (fact_data item))) cat items).
Qed.

Lemma recall_hits_sublist typed app :
  map report_of (recall_hits typed app)
    `sublist_of` all_facts (memories_of (attributes app)).
Proof.
  unfold recall_hits, all_facts.
  induction (memories_of (attributes app)) as [|[cat items] memories IH];
    simpl; [constructor|].
  rewrite map_app. apply sublist_app; [|exact IH].
  apply recall_category_sublist.
Qed.

Lemma recall_memory_nothing typed app :
  recall_hits typed app = [] -> recall_memory typed app = [MsgNothingFound].
Proof. unfold recall_memory. intros ->. reflexivity. Qed.

Lemma recall_memory_lines typed app :
  recall_hits typed app <> [] ->
  recall_memory typed app = map print_hit (recall_hits typed app).
Proof.
  unfold recall_memory. destruct (recall_hits typed app); [congruence|reflexivity].
Qed.


Lemma lower_char_space c : isspace c = true -> lower_char c = c.
Proof.
  destruct c as [[] [] [] [] [] [] [] []]; vm_compute; congruence.
Qed.

Lemma lstrip_lower_blank s : blank s = true -> lstrip (lower s) = "".
Proof.
  induction s as [|c s IH]; simpl; [reflexivity|].
  rewrite andb_true_iff. intros [Hc Hs].
  rewrite (lower_char_space c Hc), Hc. apply IH, Hs.
Qed.

Lemma strip_lower_blank s : blank s = true -> strip (lower s) = "".
Proof.
  intros Hs. unfold strip. rewrite (lstrip_lower_blank s Hs). reflexivity.
Qed.

End RecallFacts.

(** C7. [recall_memory] lowers and trims the line typed, and lowers
    the names and data it compares with.  A category whose name
    contains the query reports every one of its items; any other
    category reports exactly its items whose data contains the query;
    the reports follow the document, each stored item at most once;
    when nothing matches there is no report and the line "Nothing
    found" is printed.  On the example document, "engine" reports the
    IGBT fact through its category ENGINE, "igbt" reports it through
    its data, and "zzz" reports nothing. *)
Theorem recall_memory_matches :
  (forall (typed : string) (app : MiniAI),
     let query := Py.strip (Py.lower typed) in
     let memories := memories_of (attributes app) in
     let hits := recall_hits typed app in
     (forall h,
        h ∈ hits
        <-> exists items,
              (hit_cat h, items) ∈ memories
              /\ hit_item h ∈ items
              /\ reported_as query h)
     /\ (forall cat items item,
           (cat, items) ∈ memories -> item ∈ items ->
           Py.substring_of query (Py.lower cat) ->
           mkHit CategoryHit cat item ∈ hits)
     /\ (forall cat items item,
           (cat, items) ∈ memories -> item ∈ items ->
           ~ Py.substring_of query (Py.lower cat) ->
           (mkHit ContentHit cat item ∈ hits
            <-> Py.substring_of query (Py.lower (fact_data item))))
     /\ map report_of hits `sublist_of` all_facts memories
     /\ ((forall cat items item,
            (cat, items) ∈ memories -> item ∈ items ->
            ~ Py.substring_of query (Py.lower cat)
            /\ ~ Py.substring_of query (Py.lower (fact_data item))) ->
         hits = [] /\ recall_memory typed app = [MsgNothingFound])
     /\ (hits <> [] -> recall_memory typed app = map print_hit hits))
  /\ (let app := {| short_term_memory := []; attributes := example_doc |} in
      let igbt :=
        mkFact (Some "ENGINE") "IGBT driver uses TC4420CPA"
          "2026-01-26 10:00:00" in
      recall_hits "engine" app = [mkHit CategoryHit "ENGINE" igbt]
      /\ recall_hits "  Engine " app = [mkHit CategoryHit "ENGINE" igbt]
      /\ recall_hits "igbt" app = [mkHit ContentHit "ENGINE" igbt]
      /\ recall_hits "zzz" app = []
      /\ recall_memory "zzz" app = [MsgNothingFound]).
Proof.
  split.
  - intros typed app query memories hits.
    assert (forall h,
              h ∈ hits
              <-> exists items,
                    (hit_cat h, items) ∈ memories
                    /\ hit_item h ∈ items
                    /\ reported_as query h) as Hhits
      by (intros h; apply elem_of_recall_hits).
    split; [exact Hhits|]. split; [|split; [|split; [|split]]].
    + intros cat items item Hmem Hitem Hcat.
      apply Hhits. exists items. simpl.
      split; [exact Hmem|]. split; [exact Hitem|].
      left. split; [exact Hcat|reflexivity].
    + intros cat items item Hmem Hitem Hcat. split.
      * intros Hin. apply Hhits in Hin as (_ & _ & _ & [[_ Hk]|(_ & Hd & _)]).
        -- discriminate.
        -- exact Hd.
      * intros Hd. apply Hhits. exists items. simpl.
        split; [exact Hmem|]. split; [exact Hitem|].
        right. split; [exact Hcat|]. split; [exact Hd|reflexivity].
    + apply recall_hits_sublist.
    + intros Hnone.
      assert (hits = []) as Hempty.
      { destruct hits as [|h hits'] eqn:Eh; [reflexivity|].
        assert (h ∈ h :: hits') as Hin by left.
        apply Hhits in Hin as (items & Hmem & Hitem & Hrep).
        destruct (Hnone _ _ _ Hmem Hitem) as [Hc Hd].
        destruct Hrep as [[Hyes _]|(_ & Hyes & _)]; contradiction. }
      split; [exact Hempty|]. apply recall_memory_nothing, Hempty.
    + apply recall_memory_lines.
  - vm_compute. repeat split; reflexivity.
Qed.

Lemma recall_memory_matches_witness :
  mkHit ContentHit "LEGAL"
    (mkFact (Some "LEGAL") "Case filed 2024" "2026-01-26 10:00:01")
  ∈ recall_hits " FILED "
      {| short_term_memory := []; attributes := example_doc |}.
Proof.
  destruct recall_memory_matches as [Hall _].
  destruct (Hall " FILED "
              {| short_term_memory := []; attributes := example_doc |})
    as (Hhits & _).
  apply Hhits. eexists. simpl.
  split; [right; left|]. split; [left|].
  right.
  split; [apply PyFacts.contains_false_iff; reflexivity|].
  split; [apply PyFacts.contains_true_iff; reflexivity|reflexivity].
Defined.



(** * Properties of the rest of the program *)

(** ** More on strings *)

Module PyMoreFacts.
Import Py PyMore.

Lemma app_cons c (a b : string) : String c a +:+ b = String c (a +:+ b).
Proof. reflexivity. Qed.

Lemma app_nil_l (s : string) : "" +:+ s = s.
Proof. reflexivity. Qed.

Lemma app_nil_r (s : string) : s +:+ "" = s.
Proof. induction s as [|c s IH]; [reflexivity|]. rewrite app_cons, IH. reflexivity. Qed.

Lemma app_assoc (a b c : string) : (a +:+ b) +:+ c = a +:+ (b +:+ c).
Proof.
  induction a as [|x a IH]; [reflexivity|]. rewrite !app_cons, IH. reflexivity.
Qed.

Lemma rev_app_spec (s1 s2 : string) :
  String.rev_app s1 s2 = String.rev s1 +:+ s2.
Proof.
  unfold String.rev. revert s2.
  induction s1 as [|c s1 IH]; intros s2; simpl; [reflexivity|].
  rewrite (IH (String c s2)), (IH (String c "")), app_assoc. reflexivity.
Qed.

Lemma rev_cons c (s : string) : String.rev (String c s) = String.rev s +:+ String c "".
Proof. unfold String.rev at 1. simpl. apply rev_app_spec. Qed.

Lemma rev_app (a b : string) : String.rev (a +:+ b) = String.rev b +:+ String.rev a.
Proof.
  induction a as [|c a IH].
  - rewrite app_nil_l. change (String.rev "") with "". rewrite app_nil_r. reflexivity.
  - rewrite app_cons, !rev_cons, IH, app_assoc. reflexivity.
Qed.

Lemma rev_involutive (s : string) : String.rev (String.rev s) = s.
Proof.
  induction s as [|c s IH]; [reflexivity|].
  rewrite rev_cons, rev_app, IH. reflexivity.
Qed.

Lemma lstrip_suffix (s : string) :
  exists a, s = a +:+ lstrip s /\ blank a = true.
Proof.
  induction s as [|c s (a & Ha & Hb)]; simpl.
  - exists "". split; reflexivity.
  - destruct (isspace c) eqn:Hc.
    + exists (String c a). rewrite app_cons, <- Ha. simpl. rewrite Hc, Hb.
      split; reflexivity.
    + exists "". split; reflexivity.
Qed.

Lemma lstrip_fixed c (s : string) :
  isspace c = false -> lstrip (String c s) = String c s.
Proof. intros Hc. simpl. rewrite Hc. reflexivity. Qed.

(** What [lstrip] leaves is empty or starts with a character that is
    not white space. *)
Lemma lstrip_head (s : string) :
  lstrip s = "" \/ exists c t, lstrip s = String c t /\ isspace c = false.
Proof.
  induction s as [|c s IH]; simpl; [left; reflexivity|].
  destruct (isspace c) eqn:Hc; [exact IH|].
  right. exists c, s. split; [reflexivity|exact Hc].
Qed.

Lemma lstrip_idem (s : string) : lstrip (lstrip s) = lstrip s.
Proof.
  destruct (lstrip_head s) as [->|(c & t & -> & Hc)]; [reflexivity|].
  apply lstrip_fixed, Hc.
Qed.

Lemma lstrip_blank (s : string) : blank s = true -> lstrip s = "".
Proof.
  induction s as [|c s IH]; simpl; [reflexivity|].
  rewrite andb_true_iff. intros [-> Hs]. apply IH, Hs.
Qed.

Lemma lstrip_empty_blank (s : string) : lstrip s = "" -> blank s = true.
Proof.
  induction s as [|c s IH]; simpl; [reflexivity|].
  destruct (isspace c); [exact IH|discriminate].
Qed.

Lemma blank_app (a b : string) : blank (a +:+ b) = blank a && blank b.
Proof.
  induction a as [|c a IH]; [reflexivity|].
  rewrite app_cons. simpl. rewrite IH, andb_assoc. reflexivity.
Qed.

Lemma blank_rev (s : string) : blank (String.rev s) = blank s.
Proof.
  induction s as [|c s IH]; [reflexivity|].
  rewrite rev_cons, blank_app, IH. simpl. rewrite andb_true_r, andb_comm.
  reflexivity.
Qed.

(** [lstrip] keeps a last character that is not white space. *)
Lemma lstrip_snoc (u : string) c :
  isspace c = false ->
  exists w, lstrip (u +:+ String c "") = w +:+ String c "".
Proof.
  intros Hc. induction u as [|d u [w Hw]].
  - exists "". rewrite app_nil_l. simpl. rewrite Hc. reflexivity.
  - rewrite app_cons. simpl. destruct (isspace d).
    + exists w. exact Hw.
    + exists (String d u). reflexivity.
Qed.

Lemma rstrip_prefix (s : string) :
  exists b, s = rstrip s +:+ b /\ blank b = true.
Proof.
  unfold rstrip.
  destruct (lstrip_suffix (String.rev s)) as (a & Ha & Hb).
  exists (String.rev a). split.
  - rewrite <- rev_app, <- Ha, rev_involutive. reflexivity.
  - rewrite blank_rev. exact Hb.
Qed.

Lemma rstrip_idem (s : string) : rstrip (rstrip s) = rstrip s.
Proof. unfold rstrip. rewrite rev_involutive, lstrip_idem. reflexivity. Qed.

(** [rstrip] keeps a first character that is not white space. *)
Lemma rstrip_head c (s : string) :
  isspace c = false -> exists t, rstrip (String c s) = String c t.
Proof.
  intros Hc. unfold rstrip. rewrite rev_cons.
  destruct (lstrip_snoc (String.rev s) c Hc) as [w ->].
  rewrite rev_app. exists (String.rev w). reflexivity.
Qed.

Lemma strip_idem (s : string) : strip (strip s) = strip s.
Proof.
  unfold strip.
  destruct (lstrip_head s) as [->|(c & t & -> & Hc)]; [reflexivity|].
  destruct (rstrip_head c t Hc) as [t' Ht']. rewrite Ht'.
  rewrite (lstrip_fixed c t' Hc), <- Ht'. apply rstrip_idem.
Qed.

(** What [strip] returns occurs in the string it was given, between
    two runs of white space. *)
Lemma strip_between (s : string) :
  exists a b, s = a +:+ strip s +:+ b /\ blank a = true /\ blank b = true.
Proof.
  unfold strip.
  destruct (lstrip_suffix s) as (a & Ha & Hba).
  destruct (rstrip_prefix (lstrip s)) as (b & Hb & Hbb).
  exists a, b. split; [|split; assumption].
  rewrite <- Hb. exact Ha.
Qed.

Lemma strip_substring (s : string) : substring_of (strip s) s.
Proof. destruct (strip_between s) as (a & b & H & _). exists a, b. exact H. Qed.

Lemma strip_empty_iff (s : string) : strip s = "" <-> blank s = true.
Proof.
  split.
  - intros Hs. destruct (strip_between s) as (a & b & H & Ha & Hb).
    rewrite H, Hs, !blank_app, Ha, Hb. reflexivity.
  - intros Hs. unfold strip. rewrite (lstrip_blank s Hs). reflexivity.
Qed.

Lemma truthy_strip (s : string) : truthy (strip s) = negb (blank s).
Proof.
  destruct (blank s) eqn:Hb.
  - apply strip_empty_iff in Hb. rewrite Hb. reflexivity.
  - destruct (strip s) eqn:Hs; [|reflexivity].
    apply strip_empty_iff in Hs. congruence.
Qed.

Lemma truthy_true_iff (s : string) : truthy s = true <-> s <> "".
Proof. destruct s; simpl; split; congruence. Qed.

End PyMoreFacts.

(** ** Typed input *)

(** X1. [direct_input] leaves the document alone and queues at most
    one entry, at the end: it queues the two lines trimmed when neither
    is blank, and nothing otherwise.  So an entry it adds has a
    category and a data that are not empty and carry no white space at
    either end. *)
Theorem direct_input_stages_trimmed (now topic body : string) (app : MiniAI) :
  let app' := (direct_input now topic body app).1 in
  attributes app' = attributes app
  /\ (if negb (blank topic) && negb (blank body) then
        short_term_memory app'
        = short_term_memory app
            ++ [ {| category := Py.strip topic; data := Py.strip body;
                    timestamp := now |} ]
        /\ (direct_input now topic body app).2 = NoticeRemembered
      else
        app' = app /\ (direct_input now topic body app).2 = NoticeEmptyInput)
  /\ (forall mem,
        mem ∈ short_term_memory app' ->
        mem ∈ short_term_memory app
        \/ (category mem <> "" /\ data mem <> ""
            /\ Py.strip (category mem) = category mem
            /\ Py.strip (data mem) = data mem)).
Proof.
  intros app'. subst app'. unfold direct_input.
  rewrite !PyMoreFacts.truthy_strip.
  destruct (negb (blank topic) && negb (blank body)) eqn:Hok; simpl.
  - split; [reflexivity|]. split; [split; reflexivity|].
    intros mem Hmem. apply elem_of_app in Hmem as [Hold|Hnew]; [left; exact Hold|].
    apply list_elem_of_singleton in Hnew as ->. right. simpl.
    apply andb_true_iff in Hok as [Ht Hb].
    rewrite <- PyMoreFacts.truthy_strip in Ht, Hb.
    apply PyMoreFacts.truthy_true_iff in Ht, Hb.
    repeat split; try assumption; apply PyMoreFacts.strip_idem.
  - split; [reflexivity|]. split; [split; reflexivity|].
    intros mem Hmem. left. exact Hmem.
Qed.

(** ** The file sweep *)

Section SweepFacts.
Import Py PyMore.
Implicit Types (f : InputFile) (st : Sweep) (files : list InputFile).

Lemma learnable_txt f :
  is_txt f ->
  learnable f
  = match read_as f with
    | Some raw => truthy (strip raw)
    | None => false
    end.
Proof. unfold learnable. intros ->. reflexivity. Qed.

Lemma swept_txt f :
  is_txt f -> swept f = bool_decide (is_Some (read_as f)) && movable f.
Proof. unfold swept. intros ->. reflexivity. Qed.

Lemma sweep_file_app st f :
  is_txt f ->
  sweep_app (sweep_file st f)
  = if learnable f then
      {| short_term_memory := short_term_memory (sweep_app st) ++ [entry_of_file f];
         attributes := attributes (sweep_app st) |}
    else sweep_app st.
Proof.
  intros Htxt. rewrite (learnable_txt f Htxt).
  unfold sweep_file, entry_of_file.
  destruct (read_as f) as [raw|]; simpl; [|reflexivity].
  destruct (truthy (strip raw)), (movable f); reflexivity.
Qed.

Lemma sweep_file_count st f :
  is_txt f ->
  sweep_count (sweep_file st f)
  = sweep_count st + if learnable f then 1 else 0.
Proof.
  intros Htxt. rewrite (learnable_txt f Htxt). unfold sweep_file.
  destruct (read_as f) as [raw|]; simpl; [|lia].
  destruct (truthy (strip raw)), (movable f); simpl; lia.
Qed.

Lemma sweep_file_said st f :
  is_txt f ->
  sweep_said (sweep_file st f)
  = sweep_said st ++ if swept f then [] else [NoticeFileError (file_name f)].
Proof.
  intros Htxt. rewrite (swept_txt f Htxt). unfold sweep_file.
  destruct (read_as f) as [raw|]; simpl; [|reflexivity].
  destruct (movable f); simpl; [rewrite app_nil_r|]; reflexivity.
Qed.


Lemma sweep_fold_app files st :
  Forall is_txt files ->
  attributes (sweep_app (fold_left sweep_file files st))
  = attributes (sweep_app st)
  /\ short_term_memory (sweep_app (fold_left sweep_file files st))
     = short_term_memory (sweep_app st)
         ++ map entry_of_file (List.filter learnable files)
  /\ sweep_count (fold_left sweep_file files st)
     = sweep_count st + Z.of_nat (length (List.filter learnable files))
  /\ sweep_said (fold_left sweep_file files st)
     = sweep_said st
         ++ map (fun f => NoticeFileError (file_name f))
              (List.filter (fun f => negb (swept f)) files).
Proof.
  intros Htxt. revert st.
  induction Htxt as [|f files Hf Htxt IH]; intros st; simpl.
  - rewrite !app_nil_r. repeat split; lia.
  - destruct (IH (sweep_file st f)) as (Ha & Hb & Hc & Hs).
    rewrite Ha, Hb, Hc, Hs.
    rewrite (sweep_file_app st f Hf), (sweep_file_count st f Hf),
      (sweep_file_said st f Hf).
    destruct (learnable f), (swept f); simpl;
      rewrite <- ?app_assoc; simpl; rewrite ?app_nil_r;
      repeat split; try reflexivity; lia.
Qed.




Lemma txt_files_Forall dir : Forall is_txt (txt_files dir).
Proof.
  apply Forall_forall. intros f Hin.
  apply list_elem_of_In, filter_In in Hin as [_ Hf]. exact Hf.
Qed.

Lemma filter_filter_bool {A} (p q : A -> bool) (l : list A) :
  List.filter p (List.filter q l) = List.filter (fun x => q x && p x) l.
Proof.
  induction l as [|x l IH]; simpl; [reflexivity|].
  destruct (q x); simpl; [destruct (p x)|]; rewrite IH; reflexivity.
Qed.

Lemma filter_ext_bool {A} (p q : A -> bool) (l : list A) :
  (forall x, p x = q x) -> List.filter p l = List.filter q l.
Proof.
  intros Hpq. induction l as [|x l IH]; simpl; [reflexivity|].
  rewrite Hpq, IH. reflexivity.
Qed.

Lemma learnable_of_txt_files dir :
  List.filter learnable (txt_files dir) = List.filter learnable (input_folder dir).
Proof.
  unfold txt_files. rewrite filter_filter_bool. apply filter_ext_bool.
  intros f. unfold learnable. destruct (endswith (file_name f) ".txt"); reflexivity.
Qed.

Lemma swept_of_txt_files dir :
  List.filter swept (txt_files dir) = List.filter swept (input_folder dir).
Proof.
  unfold txt_files. rewrite filter_filter_bool. apply filter_ext_bool.
  intros f. unfold swept. destruct (endswith (file_name f) ".txt"); reflexivity.
Qed.

End SweepFacts.

Section SweepTheorems.
Import Py PyMore.
Implicit Types (f g : InputFile) (dir : Folders) (app : MiniAI).



Lemma txt_files_nil_no_learnable dir :
  txt_files dir = [] ->
  List.filter learnable (input_folder dir) = []
  /\ List.filter swept (input_folder dir) = [].
Proof.
  intros Hnil.
  rewrite <- learnable_of_txt_files, <- swept_of_txt_files, Hnil.
  split; reflexivity.
Qed.

Lemma read_files_and_learn_app dir app :
  attributes (read_files_and_learn dir app).1.2 = attributes app
  /\ short_term_memory (read_files_and_learn dir app).1.2
     = short_term_memory app
         ++ map entry_of_file (List.filter learnable (input_folder dir)).
Proof.
  unfold read_files_and_learn.
  destruct (txt_files dir) as [|f files] eqn:Hfiles.
  - destruct (txt_files_nil_no_learnable dir Hfiles) as [-> _].
    simpl. rewrite app_nil_r. split; reflexivity.
  - rewrite <- learnable_of_txt_files, Hfiles.
    pose proof (txt_files_Forall dir) as Htxt. rewrite Hfiles in Htxt.
    destruct (sweep_fold_app (f :: files)
                {| sweep_folders := dir; sweep_app := app;
                   sweep_count := 0; sweep_said := [] |} Htxt)
      as (Ha & Hb & _).
    simpl in *. split; assumption.
Qed.





End SweepTheorems.

Section SweepClaims.
Import Py PyMore.
Implicit Types (f g : InputFile) (dir : Folders) (app : MiniAI).

Lemma read_files_and_learn_said dir app :
  (read_files_and_learn dir app).2
  = match txt_files dir with
    | [] => [NoticeNoTxtFiles]
    | files =>
        map (fun f => NoticeFileError (file_name f))
          (List.filter (fun f => negb (swept f)) files)
        ++ (if 0 <? Z.of_nat (length (List.filter learnable (input_folder dir)))
            then [NoticeLearned
                    (Z.of_nat (length (List.filter learnable (input_folder dir))))]
            else [])
    end.
Proof.
  unfold read_files_and_learn.
  destruct (txt_files dir) as [|f files] eqn:Hfiles; [reflexivity|].
  rewrite <- learnable_of_txt_files, Hfiles.
  pose proof (txt_files_Forall dir) as Htxt. rewrite Hfiles in Htxt.
  destruct (sweep_fold_app (f :: files)
              {| sweep_folders := dir; sweep_app := app;
                 sweep_count := 0; sweep_said := [] |} Htxt)
    as (_ & _ & Hc & Hs).
  cbn [snd]. rewrite Hc, Hs. reflexivity.
Qed.

Lemma learnable_inv f :
  learnable f = true ->
  is_txt f /\ exists raw, read_as f = Some raw /\ strip raw <> "".
Proof.
  unfold learnable, is_txt. rewrite andb_true_iff. intros [Htxt Hread].
  split; [exact Htxt|].
  destruct (read_as f) as [raw|]; [|discriminate].
  exists raw. split; [reflexivity|]. apply PyMoreFacts.truthy_true_iff, Hread.
Qed.

End SweepClaims.

(** X2. The file sweep leaves the document alone and queues, after
    what was pending and in listing order, one entry for each file
    whose name ends in [.txt], whose text can be read and whose text is
    not blank; the data of the entry is the text trimmed, so it is
    never empty.  The line "Learned n files" is printed exactly when
    some file was learnt, with n their number, and the line "No .txt
    files" exactly when no name ends in [.txt]. *)
Theorem read_files_and_learn_queues (dir : Folders) (app : MiniAI) :
  let result := read_files_and_learn dir app in
  let learnt := List.filter learnable (input_folder dir) in
  attributes result.1.2 = attributes app
  /\ short_term_memory result.1.2
     = short_term_memory app ++ map entry_of_file learnt
  /\ (forall f, f ∈ learnt ->
        is_txt f
        /\ (exists raw,
              read_as f = Some raw
              /\ data (entry_of_file f) = Py.strip raw)
        /\ data (entry_of_file f) <> ""
        /\ Py.strip (data (entry_of_file f)) = data (entry_of_file f))
  /\ (forall n,
        NoticeLearned n ∈ result.2
        <-> n = Z.of_nat (length learnt) /\ learnt <> [])
  /\ (NoticeNoTxtFiles ∈ result.2 <-> txt_files dir = []).
Proof.
  intros result learnt. subst result learnt.
  destruct (read_files_and_learn_app dir app) as [Hattr Hbuf].
  split; [exact Hattr|]. split; [exact Hbuf|]. split; [|split].
  - intros f Hf. apply list_elem_of_In, filter_In in Hf as [_ Hl].
    destruct (learnable_inv f Hl) as (Htxt & raw & Hraw & Hne).
    unfold entry_of_file; simpl. rewrite Hraw; simpl.
    split; [exact Htxt|]. split; [eauto|]. split; [exact Hne|].
    apply PyMoreFacts.strip_idem.
  - intros n. rewrite read_files_and_learn_said.
    destruct (txt_files dir) as [|f0 files] eqn:Hfiles.
    + destruct (txt_files_nil_no_learnable dir Hfiles) as [-> _]. split.
      * intros Hin. apply list_elem_of_singleton in Hin. discriminate.
      * intros [_ Hne]. congruence.
    + set (learnt := List.filter learnable (input_folder dir)).
      rewrite elem_of_app. split.
      * intros [Hin|Hin].
        -- apply list_elem_of_fmap in Hin as (f & Hf & _). discriminate.
        -- destruct (0 <? Z.of_nat (length learnt)) eqn:Hpos.
           ++ apply list_elem_of_singleton in Hin. injection Hin as ->.
              split; [reflexivity|].
              apply Z.ltb_lt in Hpos. intros Hnil. rewrite Hnil in Hpos.
              simpl in Hpos. lia.
           ++ apply elem_of_nil in Hin. destruct Hin.
      * intros [-> Hne]. right.
        assert ((0 <? Z.of_nat (length learnt)) = true) as ->.
        { apply Z.ltb_lt. destruct learnt; [congruence|simpl; lia]. }
        left.
  - rewrite read_files_and_learn_said.
    destruct (txt_files dir) as [|f0 files] eqn:Hfiles.
    + split; [reflexivity|]. intros _. left.
    + split; [|discriminate].
      intros Hin. apply elem_of_app in Hin as [Hin|Hin].
      * apply list_elem_of_fmap in Hin as (f & Hf & _). discriminate.
      * destruct (0 <? _); [|apply elem_of_nil in Hin; destruct Hin].
        apply list_elem_of_singleton in Hin. discriminate.
Qed.



Section SecondSweep.
Import Py PyMore.
Implicit Types (f g : InputFile) (dir : Folders) (app : MiniAI).

Lemma endswith_true_iff (s suffix : string) :
  endswith s suffix = true <-> exists a, s = a +:+ suffix.
Proof.
  unfold endswith. rewrite PyFacts.startswith_true_iff. split.
  - intros [b Hb]. exists (String.rev b).
    rewrite <- (PyMoreFacts.rev_involutive s), Hb, PyMoreFacts.rev_app,
      PyMoreFacts.rev_involutive.
    reflexivity.
  - intros [a ->]. exists (String.rev a). apply PyMoreFacts.rev_app.
Qed.

Lemma no_dot_cons c (s : string) :
  contains "." (String c s) = false ->
  c <> "."%char /\ contains "." s = false.
Proof.
  simpl. rewrite orb_false_iff, andb_true_r.
  intros [Hc Hs]. split; [|exact Hs].
  intros ->. discriminate.
Qed.

Lemma replace_txt_stem (base : string) :
  contains "." base = false ->
  replace ".txt" "" (base +:+ ".txt") = base.
Proof.
  unfold replace. induction base as [|c base IH]; intros Hdot.
  - reflexivity.
  - apply no_dot_cons in Hdot as [Hc Hdot].
    rewrite PyMoreFacts.app_cons. cbn [replace_from startswith].
    destruct (Ascii.eqb_spec "." c) as [<-|_]; [congruence|].
    simpl. rewrite (IH Hdot). reflexivity.
Qed.

End SecondSweep.



(** X5. A file whose name is a stem without any dot followed by [.txt]
    is taken by the sweep, and the category of its entry is the stem:
    the empty stem included, so the file named [.txt] is queued under
    the empty category. *)
Theorem sweep_category_is_stem (f : InputFile) (stem : string) :
  file_name f = stem +:+ ".txt" ->
  Py.contains "." stem = false ->
  is_txt f /\ category (entry_of_file f) = stem.
Proof.
  intros Hname Hdot. unfold is_txt, entry_of_file. simpl. rewrite Hname.
  split.
  - apply endswith_true_iff. exists stem. reflexivity.
  - apply replace_txt_stem, Hdot.
Qed.

Lemma sweep_category_is_stem_witness :
  category
    (entry_of_file (mkInputFile ".txt" (Some "x") "2026-01-26 10:00:05" true))
  = "".
Proof.
  apply (sweep_category_is_stem
           (mkInputFile ".txt" (Some "x") "2026-01-26 10:00:05" true) "");
    reflexivity.
Defined.

(** ** Saving and loading together *)

Section PersistFacts.
Context `{JsonCodec}.
Implicit Types (app : MiniAI) (fs : Files) (fault : option io_fault).

Lemma merge_and_level_idle app :
  short_term_memory app = [] ->
  is_Some (long_term_memory (attributes app)) ->
  merge_and_level app = (app, []).
Proof.
  destruct app as [pending [info lvl pts ltm]]. simpl.
  intros -> [memories ->]. reflexivity.
Qed.

Lemma merge_and_level_has_memory app :
  is_Some (long_term_memory (attributes (merge_and_level app).1)).
Proof. rewrite merge_and_level_memory. eauto. Qed.

Lemma backup_and_save_dump_fails partial doc fs :
  (backup_and_save (Some (DumpFails partial)) doc fs).1 !! FILENAME
  = Some partial
  /\ (backup_and_save (Some (DumpFails partial)) doc fs).1 !! BACKUP_FILENAME
     = match fs !! FILENAME with
       | Some current => Some current
       | None => fs !! BACKUP_FILENAME
       end.
Proof.
  unfold backup_and_save.
  destruct (fs !! FILENAME) as [current|] eqn:Hcur; simpl;
    rewrite lookup_insert_eq, lookup_insert_ne by apply names_differ.
  - rewrite lookup_insert_eq. split; reflexivity.
  - split; reflexivity.
Qed.

Lemma backup_and_save_primary_kept fault doc fs :
  strikes fault fs = true ->
  (forall partial, fault <> Some (DumpFails partial)) ->
  (backup_and_save fault doc fs).1 !! FILENAME = fs !! FILENAME.
Proof.
  unfold backup_and_save, strikes.
  destruct fault as [[| |partial]|]; intros Hs Hno; try discriminate.
  - destruct (fs !! FILENAME) as [current|] eqn:Hcur; [exact Hcur|].
    rewrite bool_decide_eq_false_2 in Hs by (intros [? ?]; discriminate).
    discriminate.
  - destruct (fs !! FILENAME) as [current|] eqn:Hcur; simpl; [|exact Hcur].
    rewrite lookup_insert_ne by (intros Heq; symmetry in Heq; revert Heq; apply names_differ).
    exact Hcur.
  - destruct (Hno partial eq_refl).
Qed.

Lemma sleep_and_save_clean fault fs app :
  strikes fault fs = false ->
  (sleep_and_save fault fs app).1.1 !! FILENAME
  = Some (json_dump (attributes (sleep_and_save fault fs app).1.2))
  /\ (sleep_and_save fault fs app).1.1 !! BACKUP_FILENAME
     = match fs !! FILENAME with
       | Some current => Some current
       | None => fs !! BACKUP_FILENAME
       end.
Proof.
  intros Hclean. rewrite sleep_and_save_files, sleep_and_save_app.
  apply backup_and_save_clean, Hclean.
Qed.

End PersistFacts.

(** X6. What a save without I/O error writes is what the next start
    reads back: when the text written for the saved document parses to
    that document, [load_brain] on the directory left by the save
    returns the document and leaves the directory as it is. *)
Theorem save_then_load_round_trip `{JsonCodec}
    (fault : option io_fault) (fs : Files) (app : MiniAI)
    (blueprint : Document) :
  strikes fault fs = false ->
  let fs' := (sleep_and_save fault fs app).1.1 in
  let doc := attributes (sleep_and_save fault fs app).1.2 in
  json_load (json_dump doc) = Some doc ->
  load_brain blueprint fs' = (fs', Returns doc).
Proof.
  intros Hclean fs' doc Hround.
  pose proof (sleep_and_save_clean (H := H)) as Hsave.
  destruct (Hsave fault fs app Hclean) as [Hprim _].
  fold fs' doc in Hprim.
  unfold load_brain. rewrite Hprim, Hround. reflexivity.
Qed.

Lemma save_then_load_round_trip_witness :
  let saved :=
    attributes (sleep_and_save (H := no_table) None ∅ engine_twice).1.2 in
  let codec := sample_codec [(sample_dump saved, saved)] in
  (load_brain (H := codec) DEFAULT_BRAIN_STRUCTURE
     (sleep_and_save (H := codec) None ∅ engine_twice).1.1).2
  = Returns saved.
Proof.
  intros saved codec.
  rewrite (save_then_load_round_trip (H := codec) None ∅ engine_twice
             DEFAULT_BRAIN_STRUCTURE eq_refl);
    [reflexivity|].
  vm_compute. reflexivity.
Defined.

(** X7. A save made right after a save without I/O error finds nothing
    pending: it leaves the object as it is, prints only the save line,
    and leaves the backup file equal to the primary file. *)
Theorem second_save_changes_nothing `{JsonCodec} (fs : Files) (app : MiniAI) :
  let first := sleep_and_save None fs app in
  let second := sleep_and_save None first.1.1 first.1.2 in
  second.1.2 = first.1.2
  /\ second.2 = [MsgSaved]
  /\ second.1.1 !! FILENAME = Some (json_dump (attributes first.1.2))
  /\ second.1.1 !! BACKUP_FILENAME = second.1.1 !! FILENAME.
Proof.
  intros first second.
  assert (merge_and_level first.1.2 = (first.1.2, [])) as Hidle.
  { subst first. rewrite sleep_and_save_app.
    apply merge_and_level_idle;
      [apply merge_and_level_buffer|apply merge_and_level_has_memory]. }
  assert (second.1.2 = first.1.2) as Happ
    by (subst second; rewrite sleep_and_save_app, Hidle; reflexivity).
  pose proof (sleep_and_save_clean (H := H)) as Hsave.
  destruct (Hsave None fs app eq_refl) as [Hprim1 _].
  destruct (Hsave None first.1.1 first.1.2 eq_refl) as [Hprim2 Hback2].
  fold first in Hprim1. fold second in Hprim2, Hback2.
  rewrite Happ in Hprim2. rewrite Hprim1 in Hback2.
  split; [exact Happ|]. split; [|split].
  - subst second. rewrite sleep_and_save_said, Hidle. reflexivity.
  - exact Hprim2.
  - rewrite Hback2, Hprim2. reflexivity.
Qed.

(** X8. A save that meets an I/O error does not cost the previous
    state: when the primary file existed and parsed before the save,
    and the partial text left by a failed dump does not parse, the next
    start returns the document of the old primary file, read from the
    primary file itself (copy or open failed) or restored from the
    backup (dump failed). *)
Theorem failed_save_keeps_previous `{JsonCodec}
    (fault : option io_fault) (fs : Files) (app : MiniAI)
    (blueprint previous : Document) (old : string) :
  strikes fault fs = true ->
  fs !! FILENAME = Some old ->
  json_load old = Some previous ->
  (forall partial, fault = Some (DumpFails partial) -> json_load partial = None) ->
  let fs' := (sleep_and_save fault fs app).1.1 in
  (load_brain blueprint fs').2 = Returns previous
  /\ (load_brain blueprint fs').1 !! FILENAME = Some old.
Proof.
  intros Hstrikes Hold Hparse Hpartial fs'. subst fs'.
  rewrite sleep_and_save_files.
  set (doc := attributes (merge_and_level app).1).
  destruct fault as [[| |partial]|]; try discriminate.
  - assert ((backup_and_save (Some CopyFails) doc fs).1 !! FILENAME = Some old)
      as Hprim
      by (rewrite backup_and_save_primary_kept; [exact Hold|exact Hstrikes|discriminate]).
    unfold load_brain. rewrite Hprim, Hparse. simpl. split; [reflexivity|exact Hprim].
  - assert ((backup_and_save (Some OpenFails) doc fs).1 !! FILENAME = Some old)
      as Hprim
      by (rewrite backup_and_save_primary_kept; [exact Hold|exact Hstrikes|discriminate]).
    unfold load_brain. rewrite Hprim, Hparse. simpl. split; [reflexivity|exact Hprim].
  - destruct (backup_and_save_dump_fails partial doc fs) as [Hprim Hback].
    rewrite Hold in Hback.
    unfold load_brain.
    rewrite Hprim, (Hpartial partial eq_refl), Hback, Hparse. simpl.
    split; [reflexivity|apply lookup_insert_eq].
Qed.

Lemma failed_save_keeps_previous_witness :
  let codec := sample_codec [("good", example_doc)] in
  let fs : Files := <[FILENAME := "good"]> ∅ in
  (load_brain (H := codec) DEFAULT_BRAIN_STRUCTURE
     (sleep_and_save (H := codec) (Some (DumpFails "{")) fs engine_twice).1.1).2
  = Returns example_doc.
Proof.
  intros codec fs.
  apply (failed_save_keeps_previous (H := codec) (Some (DumpFails "{")) fs
           engine_twice DEFAULT_BRAIN_STRUCTURE example_doc "good").
  - reflexivity.
  - reflexivity.
  - reflexivity.
  - intros partial [= <-]. reflexivity.
Defined.

(** X9. A failed save is made good by the next save of the session
    that meets no error: the primary file then holds the whole
    document, with the facts merged during the failed save, because the
    object kept them.  After a failed dump, though, that next save
    copies the partial text to the backup file. *)
Theorem next_save_heals_failed_save `{JsonCodec}
    (fault : option io_fault) (fs : Files) (app : MiniAI) :
  let failed := sleep_and_save fault fs app in
  let healed := sleep_and_save None failed.1.1 failed.1.2 in
  healed.1.2 = failed.1.2
  /\ memories_of (attributes healed.1.2)
     = fold_left merge_one (short_term_memory app)
         (memories_of (attributes app))
  /\ healed.1.1 !! FILENAME = Some (json_dump (attributes healed.1.2))
  /\ (forall partial,
        fault = Some (DumpFails partial) ->
        healed.1.1 !! BACKUP_FILENAME = Some partial).
Proof.
  intros failed healed.
  assert (merge_and_level failed.1.2 = (failed.1.2, [])) as Hidle.
  { subst failed. rewrite sleep_and_save_app.
    apply merge_and_level_idle;
      [apply merge_and_level_buffer|apply merge_and_level_has_memory]. }
  assert (healed.1.2 = failed.1.2) as Happ
    by (subst healed; rewrite sleep_and_save_app, Hidle; reflexivity).
  pose proof (sleep_and_save_clean (H := H)) as Hsave.
  destruct (Hsave None failed.1.1 failed.1.2 eq_refl) as [Hprim Hback].
  fold healed in Hprim, Hback.
  split; [exact Happ|]. split; [|split].
  - rewrite Happ. subst failed.
    rewrite sleep_and_save_app. apply merge_and_level_memories.
  - exact Hprim.
  - intros partial ->. rewrite Hback. subst failed.
    rewrite sleep_and_save_files.
    destruct (backup_and_save_dump_fails partial
                (attributes (merge_and_level app).1) fs) as [-> _].
    reflexivity.
Qed.

(** X10. Loading is stable: when [load_brain] returns a document, the
    primary file exists afterwards, and, provided the text written for
    the blueprint parses back to the blueprint, loading again returns
    the same document and leaves the directory as it is. *)
Theorem load_brain_is_stable `{JsonCodec}
    (blueprint doc : Document) (fs fs' : Files) :
  load_brain blueprint fs = (fs', Returns doc) ->
  json_load (json_dump blueprint) = Some blueprint ->
  is_Some (fs' !! FILENAME)
  /\ load_brain blueprint fs' = (fs', Returns doc).
Proof.
  unfold load_brain, create_new_brain. intros Hload Hround.
  destruct (fs !! FILENAME) as [text|] eqn:Hprim.
  - destruct (json_load text) as [parsed|] eqn:Htext.
    + injection Hload as <- <-. rewrite Hprim, Htext. split; [eauto|reflexivity].
    + destruct (fs !! BACKUP_FILENAME) as [saved|] eqn:Hback.
      * destruct (json_load saved) as [parsed|] eqn:Hsaved; [|discriminate].
        injection Hload as <- <-.
        rewrite lookup_insert_eq, Hsaved. split; [eauto|reflexivity].
      * injection Hload as <- <-.
        rewrite lookup_insert_eq, Hround. split; [eauto|reflexivity].
  - injection Hload as <- <-.
    rewrite lookup_insert_eq, Hround. split; [eauto|reflexivity].
Qed.

Lemma load_brain_is_stable_witness :
  let codec := sample_codec [("old", example_doc);
                             (sample_dump DEFAULT_BRAIN_STRUCTURE,
                              DEFAULT_BRAIN_STRUCTURE)] in
  let fs : Files := <[FILENAME := "{"]> (<[BACKUP_FILENAME := "old"]> ∅) in
  let fs' : Files := <[FILENAME := "old"]> fs in
  load_brain (H := codec) DEFAULT_BRAIN_STRUCTURE fs'
  = (fs', Returns example_doc).
Proof.
  intros codec fs fs'.
  apply (load_brain_is_stable (H := codec) DEFAULT_BRAIN_STRUCTURE
           example_doc fs fs'); reflexivity.
Defined.

(** ** More on sessions *)

Section DictMore.
Context {V : Type}.
Implicit Types (d : dict V) (k : string) (v : V).


Lemma dict_get_elem k v d : dict_get k d = Some v -> (k, v) ∈ d.
Proof.
  induction d as [|[k0 v0] d IH]; simpl; [discriminate|].
  destruct (decide (k = k0)) as [->|Hne].
  - intros [= ->]. left.
  - intros Hget. right. apply IH, Hget.
Qed.



End DictMore.

Section SessionMore.
Context `{JsonCodec}.
Implicit Types (app : MiniAI) (fs : Files) (fault : option io_fault).




Lemma learn_buffer now cat knowledge app :
  short_term_memory (learn now cat knowledge app)
  = short_term_memory app
      ++ [ {| category := cat; data := knowledge; timestamp := now |} ].
Proof. reflexivity. Qed.

(** A fact learnt and saved is in the list of its category. *)
Lemma learn_save_stored fault fs now cat knowledge app :
  exists items item,
    dict_get cat
      (memories_of
         (attributes
            (sleep_and_save fault fs (learn now cat knowledge app)).1.2))
    = Some items
    /\ item ∈ items /\ fact_data item = knowledge.
Proof.
  rewrite sleep_and_save_app, merge_and_level_memories, learn_buffer.
  rewrite fold_left_app. simpl.
  set (ltm := fold_left merge_one (short_term_memory app) _).
  pose proof (merge_one_then_present ltm (mkEntry cat knowledge now)) as Hin.
  simpl in Hin.
  destruct (dict_get cat (merge_one ltm (mkEntry cat knowledge now)))
    as [items|]; simpl in Hin.
  - apply list_elem_of_fmap in Hin as (item & Hdata & Hitem).
    exists items, item. split; [reflexivity|]. split; [exact Hitem|congruence].
  - apply elem_of_nil in Hin. destruct Hin.
Qed.

Lemma step_points cmd fs app :
  intelligence_points (attributes (step cmd (fs, app)).1.2)
  + 50 * Z.of_nat (length (short_term_memory (step cmd (fs, app)).1.2))
  = intelligence_points (attributes app)
    + 50 * Z.of_nat (length (short_term_memory app))
    + 50 * learn_count [cmd].
Proof.
  destruct cmd as [now cat knowledge|typed|fault]; unfold learn_count; simpl.
  - rewrite length_app. simpl. lia.
  - lia.
  - rewrite sleep_and_save_app, merge_and_level_points, merge_and_level_buffer.
    unfold new_items. simpl. lia.
Qed.

Lemma learn_count_cons cmd cmds :
  learn_count (cmd :: cmds) = learn_count [cmd] + learn_count cmds.
Proof. unfold learn_count. destruct cmd; simpl; lia. Qed.

Lemma step_keeps_level cmd fs app :
  level (attributes app) = level_for (intelligence_points (attributes app)) ->
  level (attributes (step cmd (fs, app)).1.2)
  = level_for (intelligence_points (attributes (step cmd (fs, app)).1.2)).
Proof.
  destruct cmd as [now cat knowledge|typed|fault]; simpl; try done.
  intros Hinv. rewrite sleep_and_save_app, merge_and_level_attributes.
  apply xp_and_level_keeps; [apply new_items_nonneg|exact Hinv].
Qed.

End SessionMore.



(** X12. Recall reads the saved document only: a fact just learnt
    changes no answer until it is saved.  Once saved, whatever became
    of the write, typing its category name reports it as a category
    hit, and typing its own text reports it too. *)
Theorem saved_fact_is_recalled `{JsonCodec}
    (fault : option io_fault) (fs : Files)
    (now cat knowledge : string) (app : MiniAI) :
  (forall typed,
     recall_memory typed (learn now cat knowledge app)
     = recall_memory typed app)
  /\ let app' := (sleep_and_save fault fs (learn now cat knowledge app)).1.2 in
     (exists item,
        fact_data item = knowledge
        /\ mkHit CategoryHit cat item ∈ recall_hits cat app')
     /\ (exists h,
           h ∈ recall_hits knowledge app'
           /\ hit_cat h = cat
           /\ fact_data (hit_item h) = knowledge).
Proof.
  split; [reflexivity|].
  intros app'. subst app'.
  destruct (learn_save_stored fault fs now cat knowledge app)
    as (items & item & Hget & Hitem & Hdata).
  apply dict_get_elem in Hget.
  split.
  - exists item. split; [exact Hdata|].
    apply elem_of_recall_hits. exists items. simpl.
    split; [exact Hget|]. split; [exact Hitem|].
    left. split; [apply PyMoreFacts.strip_substring|reflexivity].
  - destruct (Py.contains (Py.strip (Py.lower knowledge)) (Py.lower cat))
      eqn:Hcat.
    + exists (mkHit CategoryHit cat item).
      split; [|split; [reflexivity|exact Hdata]].
      apply elem_of_recall_hits. exists items. simpl.
      split; [exact Hget|]. split; [exact Hitem|].
      left. split; [apply PyFacts.contains_true_iff, Hcat|reflexivity].
    + exists (mkHit ContentHit cat item).
      split; [|split; [reflexivity|exact Hdata]].
      apply elem_of_recall_hits. exists items. simpl.
      split; [exact Hget|]. split; [exact Hitem|].
      right. split; [apply PyFacts.contains_false_iff, Hcat|].
      split; [|reflexivity].
      simpl. rewrite Hdata. apply PyMoreFacts.strip_substring.
Qed.

Section SliceFacts.
Import Py.

Lemma slice_to_length n (s : string) : (String.length (slice_to n s) <= n)%nat.
Proof.
  revert s. induction n as [|n IH]; intros [|c s]; simpl; try lia.
  specialize (IH s). lia.
Qed.

Lemma slice_to_prefix n (s : string) : exists rest, s = slice_to n s +:+ rest.
Proof.
  revert s. induction n as [|n IH]; intros s.
  - exists s. reflexivity.
  - destruct s as [|c s]; [exists ""; reflexivity|].
    destruct (IH s) as [rest Hrest]. exists rest. simpl.
    rewrite PyMoreFacts.app_cons, <- Hrest. reflexivity.
Qed.

Lemma slice_to_all n (s : string) :
  (String.length s <= n)%nat -> slice_to n s = s.
Proof.
  revert s. induction n as [|n IH]; intros [|c s]; simpl; try reflexivity; try lia.
  intros Hlen. rewrite IH by lia. reflexivity.
Qed.

End SliceFacts.

(** X13. A line printed for a category hit shows at most the first 100
    characters of the item's data (the whole data when it has no more),
    while a line printed for a content hit shows the whole data; each
    line comes from an item stored under the category it names. *)
Theorem recall_memory_lines_bounded (typed : string) (app : MiniAI) :
  (forall cat text,
     MsgFolder cat text ∈ recall_memory typed app ->
     (String.length text <= 100)%nat
     /\ exists items item,
          (cat, items) ∈ memories_of (attributes app)
          /\ item ∈ items
          /\ (exists rest, fact_data item = text +:+ rest)
          /\ ((String.length (fact_data item) <= 100)%nat ->
              text = fact_data item))
  /\ (forall cat text,
        MsgPage cat text ∈ recall_memory typed app ->
        exists items item,
          (cat, items) ∈ memories_of (attributes app)
          /\ item ∈ items
          /\ text = fact_data item).
Proof.
  assert (forall msg,
            msg ∈ recall_memory typed app ->
            msg = MsgNothingFound
            \/ exists h, h ∈ recall_hits typed app /\ msg = print_hit h) as Hmsg.
  { intros msg. unfold recall_memory.
    destruct (recall_hits typed app) as [|h hits] eqn:Hhits.
    - intros Hin. apply list_elem_of_singleton in Hin. left. exact Hin.
    - intros Hin. right. apply list_elem_of_fmap in Hin as (h' & -> & Hh').
      exists h'. split; [exact Hh'|reflexivity]. }
  split.
  - intros cat text Hin.
    destruct (Hmsg _ Hin) as [Hno|(h & Hh & Hprint)]; [discriminate|].
    apply elem_of_recall_hits in Hh as (items & Hmem & Hitem & _).
    unfold print_hit in Hprint.
    destruct (hit_kind_of h); [|discriminate].
    remember (Py.slice_to 100 (fact_data (hit_item h))) as cut eqn:Hcut.
    injection Hprint as -> ->. subst cut.
    split; [apply slice_to_length|].
    exists items, (hit_item h). split; [exact Hmem|]. split; [exact Hitem|].
    split; [apply slice_to_prefix|].
    intros Hlen. apply slice_to_all, Hlen.
  - intros cat text Hin.
    destruct (Hmsg _ Hin) as [Hno|(h & Hh & Hprint)]; [discriminate|].
    apply elem_of_recall_hits in Hh as (items & Hmem & Hitem & _).
    unfold print_hit in Hprint.
    destruct (hit_kind_of h); [discriminate|].
    injection Hprint as -> ->.
    exists items, (hit_item h). split; [exact Hmem|]. split; [exact Hitem|reflexivity].
Qed.

Lemma xp_and_level_said (count : Z) (doc : Document) (n : Z) :
  MsgLevelUp n ∈ (xp_and_level count doc).2
  <-> level (xp_and_level count doc).1 = n /\ level doc < n.
Proof.
  unfold xp_and_level.
  destruct (0 <? count).
  - destruct (level doc <? 1 + (intelligence_points doc + count * 50) / 200)
      eqn:Hlt.
    + apply Z.ltb_lt in Hlt. cbn [fst snd level]. split.
      * intros Hin. apply list_elem_of_singleton in Hin. injection Hin as ->.
        split; [reflexivity|exact Hlt].
      * intros [<- _]. left.
    + cbn [fst snd level]. split.
      * intros Hin. apply elem_of_nil in Hin. destruct Hin.
      * intros [<- Hbad]. lia.
  - cbn [fst snd]. split.
    + intros Hin. apply elem_of_nil in Hin. destruct Hin.
    + intros [<- Hbad]. lia.
Qed.

(** X14. [sleep_and_save] prints "LEVEL UP" with a level exactly when
    the save raises the level, and that level is the new one. *)
Theorem level_up_is_announced `{JsonCodec}
    (fault : option io_fault) (fs : Files) (app : MiniAI) (n : Z) :
  MsgLevelUp n ∈ (sleep_and_save fault fs app).2
  <-> level (attributes (sleep_and_save fault fs app).1.2) = n
      /\ level (attributes app) < n.
Proof.
  rewrite sleep_and_save_said, sleep_and_save_app, merge_and_level_attributes.
  assert ((merge_and_level app).2
          = (xp_and_level (new_items app)
               (update_memory (short_term_memory app) (attributes app))).2)
    as -> by (unfold merge_and_level; destruct (xp_and_level _ _); reflexivity).
  change (level (attributes app))
    with (level (update_memory (short_term_memory app) (attributes app))).
  rewrite <- xp_and_level_said, elem_of_app.
  split; [|intros Hin; left; exact Hin].
  intros [Hin|Hin]; [exact Hin|].
  apply list_elem_of_singleton in Hin.
  destruct (strikes fault fs); discriminate.
Qed.

(** X15. Over any succession of commands, the points of the document
    plus fifty per pending fact grow by exactly fifty per fact learnt:
    every learnt fact is worth fifty points once saved, a duplicate as
    well.  And a document whose level is 1 + floor(points / 200) keeps
    that equation. *)
Theorem session_points_account `{JsonCodec}
    (cmds : list command) (fs : Files) (app : MiniAI) :
  let app' := (run cmds (fs, app)).2 in
  intelligence_points (attributes app')
  + 50 * Z.of_nat (length (short_term_memory app'))
  = intelligence_points (attributes app)
    + 50 * Z.of_nat (length (short_term_memory app))
    + 50 * learn_count cmds
  /\ (level (attributes app) = level_for (intelligence_points (attributes app)) ->
      level (attributes app') = level_for (intelligence_points (attributes app'))).
Proof.
  revert fs app. induction cmds as [|cmd cmds IH]; intros fs app app'.
  - subst app'. simpl. unfold learn_count. simpl. split; [lia|done].
  - subst app'. simpl.
    pose proof (step_points cmd fs app) as Hstep.
    pose proof (step_keeps_level cmd fs app) as Hlvl.
    destruct (step cmd (fs, app)) as [[fs' app1] said]. simpl in *.
    destruct (IH fs' app1) as [Hpts Hkeep].
    rewrite learn_count_cons. split; [lia|].
    intros Hinv. apply Hkeep, Hlvl, Hinv.
Qed.

Lemma session_points_account_witness :
  intelligence_points
    (attributes
       (run (H := no_table)
          [Learn "2026-01-26 10:00:02" "ENGINE" "IGBT driver uses TC4420CPA";
           Learn "2026-01-26 10:00:03" "ENGINE" "IGBT driver uses TC4420CPA";
           Sleep None]
          (∅, {| short_term_memory := [];
                 attributes := DEFAULT_BRAIN_STRUCTURE |})).2)
  = 150
  /\ level
       (attributes
          (run (H := no_table)
             [Learn "2026-01-26 10:00:02" "ENGINE" "IGBT driver uses TC4420CPA";
              Learn "2026-01-26 10:00:03" "ENGINE" "IGBT driver uses TC4420CPA";
              Sleep None]
             (∅, {| short_term_memory := [];
                    attributes := DEFAULT_BRAIN_STRUCTURE |})).2)
     = 1.
Proof.
  destruct (session_points_account (H := no_table)
              [Learn "2026-01-26 10:00:02" "ENGINE" "IGBT driver uses TC4420CPA";
               Learn "2026-01-26 10:00:03" "ENGINE" "IGBT driver uses TC4420CPA";
               Sleep None]
              ∅ {| short_term_memory := [];
                   attributes := DEFAULT_BRAIN_STRUCTURE |})
    as [Hpts Hlvl].
  split.
  - vm_compute in Hpts. vm_compute. exact Hpts.
  - rewrite (Hlvl eq_refl). reflexivity.
Defined.

(** ** The main loop *)

Section LoopFacts.
Context `{JsonCodec}.
Implicit Types (w : World) (t : Turn) (turns : list Turn).

Lemma main_loop_cons_quit t turns w :
  quits t ->
  main_loop (t :: turns) w
  = ({| disk := (sleep_and_save (turn_fault t) (disk w) (mini w)).1.1;
        folders := folders w;
        mini := (sleep_and_save (turn_fault t) (disk w) (mini w)).1.2 |},
     map PrintedMessage (sleep_and_save (turn_fault t) (disk w) (mini w)).2
       ++ [PrintedBye],
     Quit).
Proof.
  unfold quits. intros Hq. simpl. rewrite Hq. simpl.
  destruct (sleep_and_save (turn_fault t) (disk w) (mini w)) as [[fs app] said].
  reflexivity.
Qed.

Lemma main_loop_cons_other t turns w :
  ~ quits t ->
  main_loop (t :: turns) w
  = let step := loop_body (Py.strip (PyMore.upper (turn_command t))) t w in
    let rest := main_loop turns step.1 in
    (rest.1.1, step.2 ++ rest.1.2, rest.2).
Proof.
  unfold quits. intros Hq. simpl.
  rewrite decide_False by exact Hq.
  destruct (loop_body _ t w) as [w1 said]. cbn [fst snd].
  destruct (main_loop turns w1) as [[w2 more] how]. reflexivity.
Qed.

Lemma main_loop_app_quit pre t post w :
  Forall (fun t => ~ quits t) pre ->
  quits t ->
  (main_loop pre w).2 = EndOfInput
  /\ main_loop (pre ++ t :: post) w
     = ((main_loop (t :: post) (main_loop pre w).1.1).1.1,
        (main_loop pre w).1.2 ++ (main_loop (t :: post) (main_loop pre w).1.1).1.2,
        Quit).
Proof.
  intros Hpre Hq. revert w.
  induction Hpre as [|t0 pre Ht0 Hpre IH]; intros w.
  - split; [reflexivity|].
    change ([] ++ t :: post) with (t :: post).
    change ((main_loop [] w).1.1) with w.
    change ((main_loop [] w).1.2) with (@nil Printed).
    rewrite !(main_loop_cons_quit t post w Hq). reflexivity.
  - change ((t0 :: pre) ++ t :: post) with (t0 :: (pre ++ t :: post)).
    rewrite !(main_loop_cons_other t0 _ w Ht0). cbn zeta.
    destruct (IH (loop_body (Py.strip (PyMore.upper (turn_command t0))) t0 w).1)
      as [Hend Hrun].
    split; [exact Hend|].
    rewrite Hrun. cbn [fst snd]. rewrite app_assoc. reflexivity.
Qed.

Lemma main_loop_no_quit turns w :
  Forall (fun t => ~ quits t) turns -> (main_loop turns w).2 = EndOfInput.
Proof.
  intros Hall. revert w. induction Hall as [|t turns Ht Hall IH]; intros w.
  - reflexivity.
  - rewrite (main_loop_cons_other t turns w Ht). cbn zeta. cbn [snd]. apply IH.
Qed.

Lemma loop_body_mini c t w :
  mini (loop_body c t w).1
  = if decide (c = "L") then
      (read_files_and_learn (folders w) (mini w)).1.2
    else if decide (c = "T") then
      (direct_input (turn_now t) (turn_topic t) (turn_body t) (mini w)).1
    else if decide (c = "R") then mini w
    else if decide (c = "S") then
      (sleep_and_save (turn_fault t) (disk w) (mini w)).1.2
    else mini w.
Proof.
  unfold loop_body.
  destruct (decide (c = "L")).
  { destruct (read_files_and_learn (folders w) (mini w)) as [[dir app] said].
    reflexivity. }
  destruct (decide (c = "T")).
  { destruct (direct_input _ _ _ (mini w)) as [app said]. reflexivity. }
  destruct (decide (c = "R")); [reflexivity|].
  destruct (decide (c = "S")); [|reflexivity].
  destruct (sleep_and_save (turn_fault t) (disk w) (mini w)) as [[fs app] said].
  reflexivity.
Qed.

Lemma direct_input_attributes now topic body app :
  attributes (direct_input now topic body app).1 = attributes app.
Proof.
  unfold direct_input.
  destruct (PyMore.truthy _ && PyMore.truthy _); reflexivity.
Qed.

Lemma loop_body_only_appends c t w :
  only_appended (attributes (mini w)) (attributes (mini (loop_body c t w).1)).
Proof.
  rewrite loop_body_mini.
  destruct (decide (c = "L")).
  { rewrite (proj1 (read_files_and_learn_app _ _)). apply only_appended_refl. }
  destruct (decide (c = "T")).
  { rewrite direct_input_attributes. apply only_appended_refl. }
  destruct (decide (c = "R")); [apply only_appended_refl|].
  destruct (decide (c = "S")); [|apply only_appended_refl].
  rewrite sleep_and_save_app. apply merge_and_level_only_appends.
Qed.

Lemma main_loop_only_appends turns w :
  only_appended (attributes (mini w))
    (attributes (mini (main_loop turns w).1.1)).
Proof.
  revert w. induction turns as [|t turns IH]; intros w.
  - apply only_appended_refl.
  - destruct (decide (quits t)) as [Hq|Hq].
    + rewrite (main_loop_cons_quit t turns w Hq). cbn [fst mini].
      rewrite sleep_and_save_app. apply merge_and_level_only_appends.
    + rewrite (main_loop_cons_other t turns w Hq). cbn zeta. cbn [fst].
      eapply only_appended_trans; [apply loop_body_only_appends|apply IH].
Qed.

End LoopFacts.

Section SoundData.
Context `{JsonCodec}.
Implicit Types (w : World) (t : Turn) (turns : list Turn) (app : MiniAI).

Lemma elem_of_all_facts (ltm : dict (list Fact)) cat item :
  (cat, item) ∈ all_facts ltm
  <-> exists items, (cat, items) ∈ ltm /\ item ∈ items.
Proof.
  unfold all_facts. rewrite list_elem_of_In, in_flat_map. split.
  - intros ([c items] & Hmem & Hin).
    apply in_map_iff in Hin as (x & [= <- <-] & Hx).
    exists items. split; apply list_elem_of_In; assumption.
  - intros (items & Hmem & Hin). exists (cat, items).
    split; [apply list_elem_of_In, Hmem|].
    apply in_map_iff. exists item. split; [reflexivity|apply list_elem_of_In, Hin].
Qed.

Lemma elem_of_dict_set {V} k (v : V) (d : dict V) k' v' :
  (k', v') ∈ dict_set k v d -> (k', v') ∈ d \/ (k' = k /\ v' = v).
Proof.
  induction d as [|[k0 v0] d IH]; simpl.
  - intros Hin. apply list_elem_of_singleton in Hin as [= -> ->]. right. done.
  - destruct (decide (k = k0)) as [->|Hne]; intros Hin;
      apply elem_of_cons in Hin as [[= -> ->]|Hin].
    + right. done.
    + left. right. exact Hin.
    + left. left.
    + destruct (IH Hin) as [Hd|Hk]; [left; right; exact Hd|right; exact Hk].
Qed.

Lemma all_facts_merge_one (ltm : dict (list Fact)) (mem : Entry) cat item :
  (cat, item) ∈ all_facts (merge_one ltm mem) ->
  (cat, item) ∈ all_facts ltm \/ item = stored mem.
Proof.
  rewrite !elem_of_all_facts. intros (items & Hmem & Hitem).
  unfold merge_one in Hmem.
  set (ltm1 := if dict_has (category mem) ltm then ltm
               else dict_set (category mem) [] ltm) in *.
  assert (forall c l x, (c, l) ∈ ltm1 -> x ∈ l ->
            exists l', (c, l') ∈ ltm /\ x ∈ l') as Hltm1.
  { intros c l x Hc Hx. subst ltm1.
    destruct (dict_has (category mem) ltm); [eauto|].
    apply elem_of_dict_set in Hc as [Hc|[_ ->]]; [eauto|].
    apply elem_of_nil in Hx. destruct Hx. }
  case_bool_decide as Hdup.
  - left. eapply Hltm1; eassumption.
  - apply elem_of_dict_set in Hmem as [Hmem|[-> ->]].
    + left. eapply Hltm1; eassumption.
    + apply elem_of_app in Hitem as [Hold|Hnew].
      * left.
        destruct (dict_get (category mem) ltm1) as [old|] eqn:Hget;
          simpl in Hold; [|apply elem_of_nil in Hold; destruct Hold].
        apply dict_get_elem in Hget. eapply Hltm1; eassumption.
      * right. apply list_elem_of_singleton in Hnew. exact Hnew.
Qed.

Lemma all_facts_merge_all pending (ltm : dict (list Fact)) cat item :
  (cat, item) ∈ all_facts (fold_left merge_one pending ltm) ->
  (cat, item) ∈ all_facts ltm \/ exists mem, mem ∈ pending /\ item = stored mem.
Proof.
  revert ltm. induction pending as [|mem pending IH]; intros ltm; simpl.
  - intros Hin. left. exact Hin.
  - intros Hin. destruct (IH _ Hin) as [Hold|(m & Hm & ->)].
    + apply all_facts_merge_one in Hold as [Hold| ->]; [left; exact Hold|].
      right. exists mem. split; [left|reflexivity].
    + right. exists m. split; [right; exact Hm|reflexivity].
Qed.

Lemma sleep_and_save_sound fault fs app :
  sound_data app -> sound_data (sleep_and_save fault fs app).1.2.
Proof.
  intros [Hbuf Hdoc]. rewrite sleep_and_save_app. split.
  - rewrite merge_and_level_buffer. constructor.
  - rewrite merge_and_level_memories. apply Forall_forall.
    intros [cat item] Hin. simpl.
    apply all_facts_merge_all in Hin as [Hold|(mem & Hmem & ->)].
    + exact (proj1 (Forall_forall _ _) Hdoc _ Hold).
    + exact (proj1 (Forall_forall _ _) Hbuf _ Hmem).
Qed.

Lemma direct_input_sound now topic body app :
  sound_data app -> sound_data (direct_input now topic body app).1.
Proof.
  intros [Hbuf Hdoc]. unfold direct_input.
  destruct (PyMore.truthy (Py.strip topic) && PyMore.truthy (Py.strip body))
    eqn:Hok; [|split; assumption].
  apply andb_true_iff in Hok as [_ Hb].
  split; [|exact Hdoc]. simpl.
  apply Forall_app. split; [exact Hbuf|].
  constructor; [|constructor]. simpl. split.
  - apply PyMoreFacts.truthy_true_iff, Hb.
  - apply PyMoreFacts.strip_idem.
Qed.

Lemma read_files_and_learn_sound dir app :
  sound_data app -> sound_data (read_files_and_learn dir app).1.2.
Proof.
  intros [Hbuf Hdoc].
  destruct (read_files_and_learn_app dir app) as [Hattr Hnew].
  split; [|rewrite Hattr; exact Hdoc].
  rewrite Hnew. apply Forall_app. split; [exact Hbuf|].
  apply Forall_forall. intros mem Hmem.
  apply list_elem_of_fmap in Hmem as (f & -> & Hf).
  apply list_elem_of_In, filter_In in Hf as [_ Hl].
  destruct (learnable_inv f Hl) as (_ & raw & Hraw & Hne).
  unfold entry_of_file; simpl. rewrite Hraw; simpl.
  split; [exact Hne|apply PyMoreFacts.strip_idem].
Qed.

Lemma loop_body_sound c t w :
  sound_data (mini w) -> sound_data (mini (loop_body c t w).1).
Proof.
  intros Hw. rewrite loop_body_mini.
  destruct (decide (c = "L")); [apply read_files_and_learn_sound, Hw|].
  destruct (decide (c = "T")); [apply direct_input_sound, Hw|].
  destruct (decide (c = "R")); [exact Hw|].
  destruct (decide (c = "S")); [apply sleep_and_save_sound, Hw|exact Hw].
Qed.

Lemma loop_body_unique c t w :
  unique_data (memories_of (attributes (mini w))) ->
  unique_data (memories_of (attributes (mini (loop_body c t w).1))).
Proof.
  intros Hw. rewrite loop_body_mini.
  destruct (decide (c = "L")).
  { rewrite (proj1 (read_files_and_learn_app _ _)). exact Hw. }
  destruct (decide (c = "T")); [rewrite direct_input_attributes; exact Hw|].
  destruct (decide (c = "R")); [exact Hw|].
  destruct (decide (c = "S")); [|exact Hw].
  rewrite sleep_and_save_app, merge_and_level_memories.
  apply merge_all_unique, Hw.
Qed.

Lemma main_loop_invariant (P : MiniAI -> Prop) turns w :
  (forall c t w, P (mini w) -> P (mini (loop_body c t w).1)) ->
  (forall fault fs app, P app -> P (sleep_and_save fault fs app).1.2) ->
  P (mini w) -> P (mini (main_loop turns w).1.1).
Proof.
  intros Hbody Hsave. revert w.
  induction turns as [|t turns IH]; intros w Hw; [exact Hw|].
  destruct (decide (quits t)) as [Hq|Hq].
  - rewrite (main_loop_cons_quit t turns w Hq). cbn [fst mini].
    apply Hsave, Hw.
  - rewrite (main_loop_cons_other t turns w Hq). cbn zeta. cbn [fst].
    apply IH, Hbody, Hw.
Qed.

End SoundData.

(** X16. The loop stops at the first turn whose command is [Q] (in any
    letter case, with white space around): the turns before it are
    carried out, the turn itself saves and says goodbye, and later
    turns are never read.  The buffer is then empty, and when the save
    met no I/O error the primary file holds the final document. *)
Theorem main_loop_stops_at_first_quit `{JsonCodec}
    (pre : list Turn) (t : Turn) (post : list Turn) (w : World) :
  Forall (fun t => ~ quits t) pre ->
  quits t ->
  let before := (main_loop pre w).1.1 in
  let saved := sleep_and_save (turn_fault t) (disk before) (mini before) in
  let final := (main_loop (pre ++ t :: post) w).1.1 in
  (main_loop pre w).2 = EndOfInput
  /\ main_loop (pre ++ t :: post) w
     = ({| disk := saved.1.1; folders := folders before; mini := saved.1.2 |},
        (main_loop pre w).1.2 ++ map PrintedMessage saved.2 ++ [PrintedBye],
        Quit)
  /\ short_term_memory (mini final) = []
  /\ (strikes (turn_fault t) (disk before) = false ->
      disk final !! FILENAME = Some (json_dump (attributes (mini final)))).
Proof.
  intros Hpre Hq before saved final.
  destruct (main_loop_app_quit pre t post w Hpre Hq) as [Hend Hrun].
  assert (main_loop (pre ++ t :: post) w
          = ({| disk := saved.1.1; folders := folders before;
                mini := saved.1.2 |},
             (main_loop pre w).1.2 ++ map PrintedMessage saved.2 ++ [PrintedBye],
             Quit)) as Hall.
  { rewrite Hrun. fold before.
    rewrite (main_loop_cons_quit t post before Hq). reflexivity. }
  split; [exact Hend|]. split; [exact Hall|].
  subst final. rewrite Hall. cbn [fst mini disk]. subst saved. split.
  - rewrite sleep_and_save_app. apply merge_and_level_buffer.
  - intros Hclean.
    apply (sleep_and_save_clean (turn_fault t) (disk before) (mini before) Hclean).
Qed.

Lemma main_loop_stops_at_first_quit_witness :
  let w :=
    {| disk := ∅;
       folders := {| input_folder := []; processed_folder := ∅ |};
       mini := {| short_term_memory := [];
                  attributes := DEFAULT_BRAIN_STRUCTURE |} |} in
  let typing :=
    mkTurn "t" " ENGINE " "IGBT driver uses TC4420CPA" ""
      "2026-01-26 10:00:02" None in
  let quitting := mkTurn " q " "" "" "" "2026-01-26 10:00:03" None in
  let ignored := mkTurn "T" "LEGAL" "Case filed 2024" "" "2026-01-26 10:00:04" None in
  short_term_memory
    (mini (main_loop (H := no_table) ([typing] ++ quitting :: [ignored]) w).1.1)
  = [].
Proof.
  intros w typing quitting ignored.
  assert (Forall (fun t => ~ quits t) [typing]) as Hpre
    by (constructor; [intros Hq; vm_compute in Hq; discriminate|constructor]).
  assert (quits quitting) as Hq by reflexivity.
  destruct (main_loop_stops_at_first_quit (H := no_table)
              [typing] quitting [ignored] w Hpre Hq)
    as (_ & _ & Hbuf & _).
  exact Hbuf.
Defined.

(** X17. Whatever is typed, and whatever the disk does, the program
    only appends to the document: the profile is never changed, no
    category disappears or moves, and every stored list only grows at
    its end; and categories free of repeated data stay so. *)
Theorem main_loop_only_appends_to_document `{JsonCodec}
    (turns : list Turn) (w : World) :
  let final := (main_loop turns w).1.1 in
  only_appended (attributes (mini w)) (attributes (mini final))
  /\ (unique_data (memories_of (attributes (mini w))) ->
      unique_data (memories_of (attributes (mini final)))).
Proof.
  intros final. subst final. split.
  - apply main_loop_only_appends.
  - apply (main_loop_invariant
             (fun app => unique_data (memories_of (attributes app)))).
    + intros c t w0. apply loop_body_unique.
    + intros fault fs app Huniq.
      rewrite sleep_and_save_app, merge_and_level_memories.
      apply merge_all_unique, Huniq.
Qed.

(** X18. The front ends never let an empty text through: when every
    pending entry and every stored item has a data that is not empty
    and not padded with white space, as in a session started from the
    blueprint, this still holds after any run of the loop. *)
Theorem main_loop_keeps_data_sound `{JsonCodec}
    (turns : list Turn) (w : World) :
  sound_data (mini w) ->
  sound_data (mini (main_loop turns w).1.1).
Proof.
  apply (main_loop_invariant sound_data).
  - intros c t w0. apply loop_body_sound.
  - intros fault fs app. apply sleep_and_save_sound.
Qed.

Lemma main_loop_keeps_data_sound_witness :
  sound_data
    (mini
       (main_loop (H := no_table)
          [mkTurn "T" " ENGINE " " IGBT driver uses TC4420CPA " ""
             "2026-01-26 10:00:02" None;
           mkTurn "s" "" "" "" "2026-01-26 10:00:03" (Some OpenFails)]
          {| disk := ∅;
             folders := {| input_folder := []; processed_folder := ∅ |};
             mini := {| short_term_memory := [];
                        attributes := DEFAULT_BRAIN_STRUCTURE |} |}).1.1).
Proof.
  apply (main_loop_keeps_data_sound (H := no_table)).
  split; simpl.
  - constructor.
  - constructor; [|constructor]. simpl. split; [discriminate|reflexivity].
Defined.

(** ** [RestrainedExpert] *)

Section ExpertFacts.
Import Expert.
Context `{MemoryCodec}.
Implicit Types (fs : Files) (memory : Memory) (cmd : option string).

Lemma find_Some_first {A} (p : A -> bool) (l : list A) (x : A) :
  List.find p l = Some x
  <-> exists before after,
        l = before ++ x :: after
        /\ p x = true
        /\ forall y, y ∈ before -> p y = false.
Proof.
  induction l as [|a l IH]; simpl.
  - split; [discriminate|].
    intros (before & after & Hl & _). destruct before; discriminate.
  - destruct (p a) eqn:Hpa.
    + split.
      * intros [= ->]. exists [], l. split; [reflexivity|]. split; [exact Hpa|].
        intros y Hy. apply elem_of_nil in Hy. destruct Hy.
      * intros (before & after & Hl & Hx & Hbefore).
        destruct before as [|b before]; simpl in Hl.
        -- congruence.
        -- injection Hl as <- _. rewrite Hbefore in Hpa by left. discriminate.
    + rewrite IH. split.
      * intros (before & after & -> & Hx & Hbefore).
        exists (a :: before), after. split; [reflexivity|]. split; [exact Hx|].
        intros y Hy. apply elem_of_cons in Hy as [->|Hy]; [exact Hpa|].
        apply Hbefore, Hy.
      * intros (before & after & Hl & Hx & Hbefore).
        destruct before as [|b before]; simpl in Hl.
        -- injection Hl as -> _. congruence.
        -- injection Hl as <- ->. exists before, after.
           split; [reflexivity|]. split; [exact Hx|].
           intros y Hy. apply Hbefore. right. exact Hy.
Qed.

Lemma execute_command_idle cmd fs memory :
  acted_on cmd = false -> execute_command cmd fs memory = (fs, memory, []).
Proof. destruct cmd as [[|c s]|]; [reflexivity|discriminate|reflexivity]. Qed.

Lemma execute_command_state cmd fs memory :
  acted_on cmd = true ->
  let memory' :=
    {| habits := habits memory;
       interactions := interactions memory + 1;
       start_count := start_count memory |} in
  (execute_command cmd fs memory).1
  = (<[memory_file := memory_dump memory']> fs, memory').
Proof.
  destruct cmd as [[|c s]|]; try discriminate. intros _ memory'.
  unfold execute_command.
  destruct (Py.contains "open" (String c s)); [|reflexivity].
  destruct (find_app (String c s)) as [[key uri]|]; reflexivity.
Qed.

Lemma execute_all_state (cmds : list (option string)) fs memory :
  habits (execute_all cmds fs memory).1.2 = habits memory
  /\ start_count (execute_all cmds fs memory).1.2 = start_count memory
  /\ interactions (execute_all cmds fs memory).1.2
     = interactions memory + Z.of_nat (length (List.filter acted_on cmds))
  /\ (forall name, name <> memory_file ->
        (execute_all cmds fs memory).1.1 !! name = fs !! name)
  /\ (if existsb acted_on cmds then
        (execute_all cmds fs memory).1.1 !! memory_file
        = Some (memory_dump (execute_all cmds fs memory).1.2)
      else (execute_all cmds fs memory).1 = (fs, memory)).
Proof.
  revert fs memory. induction cmds as [|cmd cmds IH]; intros fs memory.
  - simpl. repeat split; lia.
  - simpl.
    destruct (acted_on cmd) eqn:Hact.
    + pose proof (execute_command_state cmd fs memory Hact) as Hstate.
      cbn zeta in Hstate.
      destruct (execute_command cmd fs memory) as [[fs1 memory1] acts1].
      simpl in Hstate. injection Hstate as -> ->.
      specialize (IH (<[memory_file := memory_dump
                          {| habits := habits memory;
                             interactions := interactions memory + 1;
                             start_count := start_count memory |}]> fs)
                    {| habits := habits memory;
                       interactions := interactions memory + 1;
                       start_count := start_count memory |}).
      destruct (execute_all cmds _ _) as [[fs2 memory2] acts2].
      simpl in *. destruct IH as (Hh & Hs & Hi & Hother & Hfile).
      split; [exact Hh|]. split; [exact Hs|]. split; [lia|]. split.
      * intros name Hname. rewrite Hother by exact Hname.
        apply lookup_insert_ne. congruence.
      * destruct (existsb acted_on cmds); [exact Hfile|].
        injection Hfile as -> ->. apply lookup_insert_eq.
    + rewrite (execute_command_idle cmd fs memory Hact).
      specialize (IH fs memory).
      destruct (execute_all cmds fs memory) as [[fs2 memory2] acts2].
      simpl in *. exact IH.
Qed.

End ExpertFacts.

Section ExpertCommand.
Import Expert.
Context `{MemoryCodec}.

(** The first application whose name occurs in the command. *)
Lemma find_app_first (cmd key uri : string) :
  find_app cmd = Some (key, uri)
  <-> exists before after,
        commands = before ++ (key, uri) :: after
        /\ Py.substring_of key cmd
        /\ forall k u, (k, u) ∈ before -> ~ Py.substring_of k cmd.
Proof.
  unfold find_app. rewrite find_Some_first. split.
  - intros (before & after & Hl & Hx & Hbefore).
    exists before, after. split; [exact Hl|].
    split; [apply PyFacts.contains_true_iff, Hx|].
    intros k u Hk. apply PyFacts.contains_false_iff.
    exact (Hbefore (k, u) Hk).
  - intros (before & after & Hl & Hx & Hbefore).
    exists before, after. split; [exact Hl|].
    split; [apply PyFacts.contains_true_iff, Hx|].
    intros [k u] Hk. apply PyFacts.contains_false_iff. eapply Hbefore, Hk.
Qed.

Lemma execute_command_done (c : ascii) (s : string) fs memory :
  (execute_command (Some (String c s)) fs memory).2
  = match (if Py.contains "open" (String c s) then find_app (String c s)
           else None) with
    | Some (key, uri) =>
        [Speak (SayOpening key);
         StartActivity "android.intent.action.VIEW" uri]
    | None =>
        if Py.contains "status" (String c s) then
          [Speak (SayStatus (interactions memory + 1))]
        else [Speak (SayNotRecognized (String c s))]
    end.
Proof.
  unfold execute_command.
  destruct (Py.contains "open" (String c s)); [|reflexivity].
  destruct (find_app (String c s)) as [[key uri]|]; reflexivity.
Qed.

End ExpertCommand.

(** X19. The memory of [RestrainedExpert] survives a save and a load:
    when the text written for a memory parses back to it, loading
    after saving returns it.  Loading never fails: a missing file or a
    text that does not parse gives the default memory with zero
    interactions.  Saving touches no other file. *)
Theorem expert_memory_round_trip `{Expert.MemoryCodec}
    (memory : Expert.Memory) (fs : Files) :
  (Expert.memory_load (Expert.memory_dump memory) = Some memory ->
   Expert.load_memory (Expert.save_memory memory fs) = memory)
  /\ (fs !! Expert.memory_file = None ->
      Expert.load_memory fs = Expert.default_memory)
  /\ (forall text,
        fs !! Expert.memory_file = Some text ->
        Expert.memory_load text = None ->
        Expert.load_memory fs = Expert.default_memory)
  /\ (forall name,
        name <> Expert.memory_file ->
        Expert.save_memory memory fs !! name = fs !! name).
Proof.
  unfold Expert.load_memory, Expert.save_memory.
  split; [|split; [|split]].
  - intros Hround. rewrite lookup_insert_eq, Hround. reflexivity.
  - intros ->. reflexivity.
  - intros text -> ->. reflexivity.
  - intros name Hne. apply lookup_insert_ne. congruence.
Qed.

(** X20. [execute_command] counts and saves before it acts: over any
    succession of commands the interaction count grows by the number of
    commands that are neither missing nor empty, habits and start count
    are untouched, the memory file then holds the final memory (and is
    left alone when no command counted), and no other file changes. *)
Theorem expert_counts_every_command `{Expert.MemoryCodec}
    (cmds : list (option string)) (fs : Files) (memory : Expert.Memory) :
  let result := Expert.execute_all cmds fs memory in
  Expert.interactions result.1.2
  = Expert.interactions memory
    + Z.of_nat (length (List.filter Expert.acted_on cmds))
  /\ Expert.habits result.1.2 = Expert.habits memory
  /\ Expert.start_count result.1.2 = Expert.start_count memory
  /\ (forall name, name <> Expert.memory_file ->
        result.1.1 !! name = fs !! name)
  /\ (if existsb Expert.acted_on cmds then
        result.1.1 !! Expert.memory_file
        = Some (Expert.memory_dump result.1.2)
      else result.1 = (fs, memory)).
Proof.
  intros result. subst result.
  destruct (execute_all_state cmds fs memory) as (Hh & Hs & Hi & Ho & Hf).
  repeat split; assumption.
Qed.

(** X21. For a command that is not empty, [execute_command] starts an
    activity exactly when "open" occurs in the command and some
    application name does: it is the one of the first such name in the
    order google, email, youtube, music, and only that one.  The status
    is spoken, with the count already increased, exactly when "status"
    occurs in the command and nothing was opened. *)
Theorem expert_opens_first_match `{Expert.MemoryCodec}
    (cmd : string) (fs : Files) (memory : Expert.Memory) :
  cmd <> "" ->
  let done := (Expert.execute_command (Some cmd) fs memory).2 in
  (forall intent uri,
     Expert.StartActivity intent uri ∈ done
     <-> intent = "android.intent.action.VIEW"
         /\ Py.substring_of "open" cmd
         /\ exists key before after,
              Expert.commands = before ++ (key, uri) :: after
              /\ Py.substring_of key cmd
              /\ forall k u, (k, u) ∈ before -> ~ Py.substring_of k cmd)
  /\ (forall intent uri,
        Expert.StartActivity intent uri ∈ done ->
        exists key,
          done = [Expert.Speak (Expert.SayOpening key);
                  Expert.StartActivity intent uri])
  /\ (forall n,
        Expert.Speak (Expert.SayStatus n) ∈ done
        <-> n = Expert.interactions memory + 1
            /\ Py.substring_of "status" cmd
            /\ forall intent uri, Expert.StartActivity intent uri ∉ done).
Proof.
  intros Hne done. subst done.
  destruct cmd as [|c s]; [congruence|].
  rewrite execute_command_done.
  destruct (Py.contains "open" (String c s)) eqn:Hopen.
  - apply PyFacts.contains_true_iff in Hopen.
    destruct (Expert.find_app (String c s)) as [[key uri]|] eqn:Hfind.
    + split; [|split].
      * intros intent uri'. split.
        -- intros Hin.
           apply elem_of_cons in Hin as [Hin|Hin]; [discriminate|].
           apply list_elem_of_singleton in Hin. injection Hin as -> ->.
           split; [reflexivity|]. split; [exact Hopen|].
           exists key. apply find_app_first, Hfind.
        -- intros (-> & _ & key' & Hfirst).
           apply find_app_first in Hfirst. rewrite Hfind in Hfirst.
           injection Hfirst as -> ->. right. left.
      * intros intent uri' Hin.
        apply elem_of_cons in Hin as [Hin|Hin]; [discriminate|].
        apply list_elem_of_singleton in Hin. injection Hin as -> ->.
        exists key. reflexivity.
      * intros n. split.
        -- intros Hin. apply elem_of_cons in Hin as [Hin|Hin]; [discriminate|].
           apply list_elem_of_singleton in Hin. discriminate.
        -- intros (_ & _ & Hnone).
           destruct (Hnone "android.intent.action.VIEW" uri). right. left.
    + assert (forall intent uri,
                Expert.StartActivity intent uri
                ∉ (if Py.contains "status" (String c s)
                   then [Expert.Speak
                           (Expert.SayStatus (Expert.interactions memory + 1))]
                   else [Expert.Speak (Expert.SayNotRecognized (String c s))]))
        as Hnone.
      { intros intent uri Hin.
        destruct (Py.contains "status" (String c s));
          apply list_elem_of_singleton in Hin; discriminate. }
      split; [|split].
      * intros intent uri. split; [intros Hin; destruct (Hnone _ _ Hin)|].
        intros (_ & _ & key & Hfirst).
        apply find_app_first in Hfirst. congruence.
      * intros intent uri Hin. destruct (Hnone _ _ Hin).
      * intros n. destruct (Py.contains "status" (String c s)) eqn:Hstatus.
        -- apply PyFacts.contains_true_iff in Hstatus. split.
           ++ intros Hin. apply list_elem_of_singleton in Hin.
              injection Hin as ->. split; [reflexivity|]. split; [exact Hstatus|].
              intros intent uri Hin. apply list_elem_of_singleton in Hin.
              discriminate.
           ++ intros (-> & _ & _). left.
        -- apply PyFacts.contains_false_iff in Hstatus. split.
           ++ intros Hin. apply list_elem_of_singleton in Hin. discriminate.
           ++ intros (_ & Hyes & _). contradiction.
  - apply PyFacts.contains_false_iff in Hopen.
    assert (forall intent uri,
              Expert.StartActivity intent uri
              ∉ (if Py.contains "status" (String c s)
                 then [Expert.Speak
                         (Expert.SayStatus (Expert.interactions memory + 1))]
                 else [Expert.Speak (Expert.SayNotRecognized (String c s))]))
      as Hnone.
    { intros intent uri Hin.
      destruct (Py.contains "status" (String c s));
        apply list_elem_of_singleton in Hin; discriminate. }
    split; [|split].
    + intros intent uri. split; [intros Hin; destruct (Hnone _ _ Hin)|].
      intros (_ & Hyes & _). contradiction.
    + intros intent uri Hin. destruct (Hnone _ _ Hin).
    + intros n. destruct (Py.contains "status" (String c s)) eqn:Hstatus.
      * apply PyFacts.contains_true_iff in Hstatus. split.
        -- intros Hin. apply list_elem_of_singleton in Hin.
           injection Hin as ->. split; [reflexivity|]. split; [exact Hstatus|].
           intros intent uri Hin. apply list_elem_of_singleton in Hin.
           discriminate.
        -- intros (-> & _ & _). left.
      * apply PyFacts.contains_false_iff in Hstatus. split.
        -- intros Hin. apply list_elem_of_singleton in Hin. discriminate.
        -- intros (_ & Hyes & _). contradiction.
Qed.

Lemma expert_opens_first_match_witness :
  Expert.StartActivity "android.intent.action.VIEW" "http://google.com"
  ∈ (Expert.execute_command (H := Expert.count_codec)
       (Some "open youtube and google") ∅ Expert.default_memory).2.
Proof.
  assert ("open youtube and google" <> "") as Hne by discriminate.
  destruct (expert_opens_first_match (H := Expert.count_codec)
              "open youtube and google" ∅ Expert.default_memory Hne)
    as [Hstart _].
  apply Hstart. split; [reflexivity|].
  split; [apply PyFacts.contains_true_iff; reflexivity|].
  exists "google", [], (tail Expert.commands).
  split; [reflexivity|].
  split; [apply PyFacts.contains_true_iff; reflexivity|].
  intros k u Hin. apply elem_of_nil in Hin. destruct Hin.
Defined.

Section CaseFacts.
Import Py PyMore.

Lemma lower_char_idem c : lower_char (lower_char c) = lower_char c.
Proof. destruct c as [[] [] [] [] [] [] [] []]; reflexivity. Qed.

Lemma lower_idem (s : string) : lower (lower s) = lower s.
Proof.
  induction s as [|c s IH]; simpl; [reflexivity|].
  rewrite lower_char_idem, IH. reflexivity.
Qed.





End CaseFacts.

(** X22. [listen] never raises and hands on lower-case text only: what
    it returns is the second item heard when there are several, else
    the first, in lower case; it returns nothing when the recogniser
    raised, heard nothing, or the item is not a string. *)
Theorem expert_listen_lowers (heard : option (list (option string))) :
  (forall cmd,
     Expert.listen heard = Some cmd ->
     Py.lower cmd = cmd
     /\ exists items text,
          heard = Some items
          /\ cmd = Py.lower text
          /\ (items !! 1%nat = Some (Some text)
              \/ items = [Some text]))
  /\ (Expert.listen heard = None
      <-> heard = None \/ heard = Some []
          \/ (exists items, heard = Some items
                /\ (items !! 1%nat = Some None \/ items = [None]))).
Proof.
  unfold Expert.listen. split.
  - intros cmd Hcmd.
    destruct heard as [[|first [|second items]]|]; try discriminate.
    + destruct first as [text|]; [|discriminate]. injection Hcmd as <-.
      split; [apply lower_idem|].
      exists [Some text], text. split; [reflexivity|]. split; [reflexivity|].
      right. reflexivity.
    + destruct second as [text|]; [|discriminate]. injection Hcmd as <-.
      split; [apply lower_idem|].
      exists (first :: Some text :: items), text.
      split; [reflexivity|]. split; [reflexivity|]. left. reflexivity.
  - destruct heard as [[|first [|second items]]|].
    + split; [intros _; right; left; reflexivity|reflexivity].
    + destruct first as [text|]; simpl.
      * split; [discriminate|].
        intros [Hh|[Hh|(items & Hh & [Hi|Hi])]]; try discriminate.
        -- injection Hh as <-. discriminate.
        -- injection Hh as <-. discriminate.
      * split; [|reflexivity]. intros _. right. right.
        exists [None]. split; [reflexivity|]. right. reflexivity.
    + destruct second as [text|]; simpl.
      * split; [discriminate|].
        intros [Hh|[Hh|(l & Hh & [Hi|Hi])]]; try discriminate.
        -- injection Hh as <-. discriminate.
        -- injection Hh as <-. discriminate.
      * split; [|reflexivity]. intros _. right. right.
        exists (first :: None :: items). split; [reflexivity|]. left. reflexivity.
    + split; [intros _; left; reflexivity|reflexivity].
Qed.

(** ** [SovereignMobile] *)

(** X23. The start-up script shows no item of the vault unless the
    line typed as PIN is exactly 1952: with that PIN it prints the
    status report and the two LEGAL items, with any other line only
    the banner and the refusal. *)
Theorem mobile_vault_needs_pin (pin now : string) :
  (forall item,
     Mobile.LineItem item ∈ Mobile.mobile_interface pin now -> pin = "1952")
  /\ (pin <> "1952" ->
      Mobile.mobile_interface pin now
      = [Mobile.LineBanner; Mobile.LineUnauthorized])
  /\ (pin = "1952" ->
      Mobile.mobile_interface pin now
      = [Mobile.LineBanner; Mobile.LineStatusReport now; Mobile.LineOperator;
         Mobile.LineHeadquarters; Mobile.LineActivePhase;
         Mobile.LineRecalling "LEGAL";
         Mobile.LineItem "Shaun Case (VW Polo)";
         Mobile.LineItem "Woodville Primary (Safety/Misconduct)"]).
Proof.
  unfold Mobile.mobile_interface, Mobile.authenticate.
  split; [|split].
  - intros item. case_bool_decide as Hpin; [intros _; exact Hpin|].
    simpl. intros Hin.
    apply elem_of_cons in Hin as [Hin|Hin]; [discriminate|].
    apply list_elem_of_singleton in Hin. discriminate.
  - intros Hne. rewrite bool_decide_eq_false_2 by exact Hne. reflexivity.
  - intros ->. reflexivity.
Qed.


(** ** The program as a whole *)

Section ProgramFacts.
Context `{JsonCodec}.
Implicit Types (w : World) (t : Turn) (turns : list Turn) (app : MiniAI).




End ProgramFacts.


